(** * gonadeo: the Nadeo Live Services client (nadeo.go)

    A shallow embedding of [nadeo.go]: the session record, the three
    authentication exchanges, the refresh check, and the request dispatcher
    with its response cache.

    - The methods have a pointer receiver and mutate the session; they are
      state-passing functions over [State], the session record together with
      the [World] outside the process: the clock, the remote server, and the
      list of requests performed so far.
    - A call returns a Go value or panics ([Outcome]).  The one panic the
      source can raise is that of [make], on a negative length or on one the
      run time does not allocate.
    - A Go [error] is its text; [nil] is [None].
    - A time is its nanoseconds since the epoch, an integer; the [int64]
      that [UnixNano] returns wraps, and the conversion to [uint32] in
      [CheckRefresh] is written out.
    - What [nadeo.go] calls but does not define is the interface
      [Externals]; the statements hold for every implementation of it. *)

From Stdlib Require Import ZArith String Ascii List Lia DecimalString.
From stdpp Require Import base option strings gmap.

Local Open Scope string_scope.
Local Open Scope Z_scope.

(** ** Go values *)

(** A Go [error] value: [nil], or the text its [Error()] method returns. *)
Definition error : Type := option string.

(** [fmt]'s [%d] verb on an [int]. *)
Definition itoa (z : Z) : string := NilZero.string_of_int (Z.to_int z).

(** The double quote character (an escaped quote in the Go literals). *)
Definition dquote : string := String (ascii_of_nat 34) EmptyString.

(** Conversion of an [int64] to [uint32]: the low 32 bits. *)
Definition uint32 (z : Z) : Z := z mod 2 ^ 32.

(** The [int64] an integer result wraps to (two's complement). *)
Definition int64 (z : Z) : Z := (z + 2 ^ 63) mod 2 ^ 64 - 2 ^ 63.

(** ** package time

    A reading of [time.Now()] is kept as nanoseconds since the epoch;
    [UnixNano] gives them as an [int64], which wraps outside the years 1678
    to 2262. *)
Module time.
Definition Second : Z := 1000000000.
Definition Minute : Z := 60 * Second.
Definition Unix (t : Z) : Z := t / Second.
Definition UnixNano (t : Z) : Z := int64 t.
Definition Add (t d : Z) : Z := t + d.
End time.

(** ** package net/http and io *)

Record Request := {
  Method : string;
  URL : string;
  Header : list (string * string);
  ReqBody : option string       (* [None] is the nil [io.Reader] *)
}.

(** [req.Header.Add(key, value)] *)
Definition Header_Add (req : Request) (key value : string) : Request :=
  {| Method := Method req; URL := URL req;
     Header := Header req ++ [(key, value)]; ReqBody := ReqBody req |}.

(** The body of a response is a stream: it yields [content] and then either
    ends ([fault = None]) or breaks with a read error. *)
Record Reader := { content : string; fault : option string }.

Record Response := {
  StatusCode : Z;
  ContentLength : Z;            (* -1 when the length is unknown *)
  Body : Reader
}.

(** What [client.Do(req)] gives back. *)
Inductive DoResult :=
| Failed (err : string)
| Answered (resp : Response).

(** [io.ReadFull(r, buf)] on a fresh zeroed buffer of [n] bytes, its error
    dropped: the first [n] bytes of the stream, the rest of the buffer left
    at zero when the stream is shorter. *)
Fixpoint io_ReadFull (r : string) (n : nat) : string :=
  match n with
  | O => EmptyString
  | S k =>
      match r with
      | EmptyString => String zero (io_ReadFull EmptyString k)
      | String c r' => String c (io_ReadFull r' k)
      end
  end.

(** [ioutil.ReadAll(r)] *)
Definition ioutil_ReadAll (r : Reader) : string * error := (content r, fault r).

(** ** package go-cache (github.com/patrickmn/go-cache)

    The cache is a map from key to item, an item holding the value and the
    absolute time (ns) after which [Get] no longer reports it; 0 or less
    means the item never expires.  The janitor goroutine only deletes items
    that [Get] already hides, so it is left out. *)
Module cache.
Record Item := { Object : string; Expiration : Z }.

Record Cache := {
  defaultExpiration : Z;
  items : gmap string Item
}.

Definition NoExpiration : Z := -1.
Definition DefaultExpiration : Z := 0.

Definition New (defaultExp cleanupInterval : Z) : Cache :=
  {| defaultExpiration := if defaultExp =? 0 then -1 else defaultExp;
     items := ∅ |}.

Definition with_items (c : Cache) (m : gmap string Item) : Cache :=
  {| defaultExpiration := defaultExpiration c; items := m |}.
End cache.

(** ** The session *)

Record nadeo := {
  audience : string;
  accessToken : string;
  refreshToken : string;
  tokenRefreshTime : Z;         (* uint32 *)
  tokenExpirationTime : Z;      (* uint32 *)
  requestCache : cache.Cache
}.

Definition set_accessToken (v : string) (n : nadeo) : nadeo :=
  {| audience := audience n; accessToken := v; refreshToken := refreshToken n;
     tokenRefreshTime := tokenRefreshTime n;
     tokenExpirationTime := tokenExpirationTime n;
     requestCache := requestCache n |}.

Definition set_refreshToken (v : string) (n : nadeo) : nadeo :=
  {| audience := audience n; accessToken := accessToken n; refreshToken := v;
     tokenRefreshTime := tokenRefreshTime n;
     tokenExpirationTime := tokenExpirationTime n;
     requestCache := requestCache n |}.

Definition set_tokenRefreshTime (v : Z) (n : nadeo) : nadeo :=
  {| audience := audience n; accessToken := accessToken n;
     refreshToken := refreshToken n; tokenRefreshTime := v;
     tokenExpirationTime := tokenExpirationTime n;
     requestCache := requestCache n |}.

Definition set_tokenExpirationTime (v : Z) (n : nadeo) : nadeo :=
  {| audience := audience n; accessToken := accessToken n;
     refreshToken := refreshToken n; tokenRefreshTime := tokenRefreshTime n;
     tokenExpirationTime := v; requestCache := requestCache n |}.

Definition set_requestCache (c : cache.Cache) (n : nadeo) : nadeo :=
  {| audience := audience n; accessToken := accessToken n;
     refreshToken := refreshToken n; tokenRefreshTime := tokenRefreshTime n;
     tokenExpirationTime := tokenExpirationTime n; requestCache := c |}.

(** The types of the JSON envelopes and of the decoded token; the source
    reads these fields of them. *)
Record errorResponse := { Code : Z; Message : string }.
Record authResponse := { AccessToken : string; RefreshToken : string }.
Record TokenPayload := { Rat : Z; Exp : Z }.
Record TokenInfo := { Payload : TokenPayload }.

Definition errorResponse_zero : errorResponse :=
  {| Code := 0; Message := EmptyString |}.
Definition authResponse_zero : authResponse :=
  {| AccessToken := EmptyString; RefreshToken := EmptyString |}.

(** ** The world outside the process *)

Record World := {
  clock : nat -> Z;             (* the successive readings of time.Now() *)
  ticks : nat;                  (* how many readings were taken *)
  server : list Request -> Request -> DoResult;
                                (* the answer to a request, given the
                                   requests performed before it *)
  sent : list Request           (* the requests performed, latest first *)
}.

Record State := { self : nadeo; world : World }.

Definition with_self (n : nadeo) (st : State) : State :=
  {| self := n; world := world st |}.
Definition with_world (w : World) (st : State) : State :=
  {| self := self st; world := w |}.

Definition tick (w : World) : World :=
  {| clock := clock w; ticks := S (ticks w); server := server w;
     sent := sent w |}.
Definition record (req : Request) (w : World) : World :=
  {| clock := clock w; ticks := ticks w; server := server w;
     sent := req :: sent w |}.

(** ** Computations: state passing, with Go's run-time panic *)

Inductive Outcome (A : Type) :=
| Ret (a : A)
| Panic (msg : string).
Arguments Ret {A} a.
Arguments Panic {A} msg.

Definition M (A : Type) : Type := State -> Outcome A * State.

Definition ret {A} (a : A) : M A := fun st => (Ret a, st).

Definition bind {A B} (c : M A) (k : A -> M B) : M B :=
  fun st =>
    match c st with
    | (Ret a, st') => k a st'
    | (Panic msg, st') => (Panic msg, st')
    end.

Notation "'let*' x ':=' c 'in' k" := (bind c (fun x => k))
  (at level 10, x name, c at level 100, k at level 200).

Definition panic {A} (msg : string) : M A := fun st => (Panic msg, st).
Definition get_self : M nadeo := fun st => (Ret (self st), st).
Definition modify_self (f : nadeo -> nadeo) : M unit :=
  fun st => (Ret tt, with_self (f (self st)) st).

(** [time.Now()] *)
Definition time_Now : M Z :=
  fun st => let w := world st in
            (Ret (clock w (ticks w)), with_world (tick w) st).

(** [client.Do(req)] on a fresh [http.Client] *)
Definition client_Do (req : Request) : M DoResult :=
  fun st => let w := world st in
            (Ret (server w (sent w) req), with_world (record req w) st).

(** [n.requestCache.Get(k)] *)
Definition requestCache_Get (k : string) : M (string * bool) :=
  let* n := get_self in
  match cache.items (requestCache n) !! k with
  | None => ret (EmptyString, false)
  | Some item =>
      if 0 <? cache.Expiration item then
        let* t := time_Now in
        if cache.Expiration item <? time.UnixNano t
        then ret (EmptyString, false)
        else ret (cache.Object item, true)
      else ret (cache.Object item, true)
  end.

(** [n.requestCache.Set(k, x, d)] *)
Definition requestCache_Set (k x : string) (d : Z) : M unit :=
  let* n := get_self in
  let c := requestCache n in
  let d := if d =? cache.DefaultExpiration then cache.defaultExpiration c
           else d in
  let* e := (if 0 <? d
             then let* t := time_Now in ret (time.UnixNano (time.Add t d))
             else ret 0) in
  modify_self (set_requestCache
    (cache.with_items c
       (<[k := {| cache.Object := x; cache.Expiration := e |}]>
          (cache.items c)))).

(** ** What the source takes from elsewhere

    [parseTokenInfo] (the token codec) and the [Ubi] ticket client are code
    of this package outside [nadeo.go]; [json.Unmarshal], the URL check of
    [http.NewRequest] and the encoding of [SetBasicAuth] belong to Go's
    library.  The methods below are written against this interface, and every
    statement about them holds for all its implementations. *)
Class Externals := {
  (** the decoded view of an access token; it reports no error *)
  parseTokenInfo : string -> TokenInfo;
  (** [json.Unmarshal(data, &v)]: the value [v] holds afterwards, and the
      error *)
  json_Unmarshal_errorResponse :
    string -> errorResponse -> errorResponse * error;
  json_Unmarshal_authResponse :
    string -> authResponse -> authResponse * error;
  (** [make([]byte, n)] for [n] not below 0: [None] when the run time
      allocates the slice, otherwise the message it stops with (a length
      past its allocation limit, or no memory left) *)
  makeslice_refused : Z -> option string;
  (** the error of [http.NewRequest(method, url, _)], if any *)
  http_NewRequest_err : string -> string -> error;
  (** the [Authorization] value that [req.SetBasicAuth] writes *)
  basicAuth : string -> string -> string;
  (** the ticket client: [NewUbi], [ubi.Authenticate], [ubi.GetTicket] *)
  Ubi : Type;
  NewUbi : string -> Ubi;
  Ubi_Authenticate : Ubi -> string -> string -> World -> (Ubi * error) * World;
  Ubi_GetTicket : Ubi -> string
}.

Definition endpoint_ubiservices : string :=
  "https://prod.trackmania.core.nadeo.online/v2/authentication/token/ubiservices".
Definition endpoint_basic : string :=
  "https://prod.trackmania.core.nadeo.online/v2/authentication/token/basic".
Definition endpoint_refresh : string :=
  "https://prod.trackmania.core.nadeo.online/v2/authentication/token/refresh".

Section Client.
Context {E : Externals}.

(** How [make([]byte, n)] stops for an [int64] length [n], if it does: on
    a negative length with the run-time panic, and on a length the run time
    refuses. *)
Definition makeslice_panic (n : Z) : option string :=
  if n <? 0 then Some "runtime error: makeslice: len out of range"
  else makeslice_refused n.

(** [make([]byte, n)]: the length of the slice, or the panic. *)
Definition make_bytes (n : Z) : M nat :=
  match makeslice_panic n with
  | Some msg => panic msg
  | None => ret (Z.to_nat n)
  end.

(** [http.NewRequest(method, url, body)] *)
Definition http_NewRequest (method url : string) (body : option string)
  : string + Request :=
  match http_NewRequest_err method url with
  | Some err => inl err
  | None => inr {| Method := method; URL := url; Header := [];
                   ReqBody := body |}
  end.

(** The JSON text both authentication calls post. *)
Definition audience_body (n : nadeo) : string :=
  "{" +:+ dquote +:+ "audience" +:+ dquote +:+ ":" +:+ dquote +:+
  audience n +:+ dquote +:+ "}".

Definition AuthenticateUbiTicket (ticket : string) : M error :=
  let* n := get_self in
  let body := audience_body n in
  match http_NewRequest "POST" endpoint_ubiservices (Some body) with
  | inl err => ret (Some ("unable to make request: " +:+ err))
  | inr req =>
      let req := Header_Add req "Content-Type" "application/json" in
      let req := Header_Add req "Authorization" ("ubi_v1 t=" +:+ ticket) in
      let* r := client_Do req in
      match r with
      | Failed err => ret (Some ("unable to perform request: " +:+ err))
      | Answered resp =>
          let* len := make_bytes (ContentLength resp) in
          let resBytes := io_ReadFull (content (Body resp)) len in
          if negb (StatusCode resp =? 200) then
            let respError :=
              fst (json_Unmarshal_errorResponse resBytes
                     errorResponse_zero) in
            ret (Some ("error " +:+ itoa (Code respError) +:+
                       " from server: " +:+ Message respError))
          else
            let res :=
              fst (json_Unmarshal_authResponse resBytes
                     authResponse_zero) in
            let* _ := modify_self (set_accessToken (AccessToken res)) in
            let* _ := modify_self (set_refreshToken (RefreshToken res)) in
            let* n := get_self in
            let tokenInfo := parseTokenInfo (accessToken n) in
            let* _ := modify_self
                        (set_tokenRefreshTime (Rat (Payload tokenInfo))) in
            let* _ := modify_self
                        (set_tokenExpirationTime
                           (Exp (Payload tokenInfo))) in
            ret None
      end
  end.

Definition AuthenticateUbi (email password : string) : M error :=
  fun st =>
    let ubi := NewUbi "86263886-327a-4328-ac69-527f0d20a237" in
    let '((ubi, _), w) := Ubi_Authenticate ubi email password (world st) in
    AuthenticateUbiTicket (Ubi_GetTicket ubi) (with_world w st).

Definition Authenticate (username password : string) : M error :=
  let* n := get_self in
  let body := audience_body n in
  match http_NewRequest "POST" endpoint_basic (Some body) with
  | inl err => ret (Some ("unable to make request: " +:+ err))
  | inr req =>
      let req := Header_Add req "Content-Type" "application/json" in
      let req := Header_Add req "Authorization"
                   (basicAuth username password) in
      let* r := client_Do req in
      match r with
      | Failed err => ret (Some ("unable to perform request: " +:+ err))
      | Answered resp =>
          let* len := make_bytes (ContentLength resp) in
          let resBytes := io_ReadFull (content (Body resp)) len in
          if negb (StatusCode resp =? 200) then
            let respError :=
              fst (json_Unmarshal_errorResponse resBytes
                     errorResponse_zero) in
            ret (Some ("error " +:+ itoa (Code respError) +:+
                       " from server: " +:+ Message respError))
          else
            let res :=
              fst (json_Unmarshal_authResponse resBytes
                     authResponse_zero) in
            let* _ := modify_self (set_accessToken (AccessToken res)) in
            let* _ := modify_self (set_refreshToken (RefreshToken res)) in
            let* n := get_self in
            let tokenInfo := parseTokenInfo (accessToken n) in
            let* _ := modify_self
                        (set_tokenRefreshTime (Rat (Payload tokenInfo))) in
            let* _ := modify_self
                        (set_tokenExpirationTime
                           (Exp (Payload tokenInfo))) in
            ret None
      end
  end.

Definition GetTokenInfo : M TokenInfo :=
  let* n := get_self in ret (parseTokenInfo (accessToken n)).

Definition refreshNow : M error :=
  match http_NewRequest "POST" endpoint_refresh None with
  | inl err => ret (Some ("unable to make request: " +:+ err))
  | inr req =>
      let* n := get_self in
      let req := Header_Add req "Authorization"
                   ("nadeo_v1 t=" +:+ refreshToken n) in
      let* r := client_Do req in
      match r with
      | Failed err => ret (Some ("unable to perform request: " +:+ err))
      | Answered resp =>
          let* len := make_bytes (ContentLength resp) in
          let resBytes := io_ReadFull (content (Body resp)) len in
          if negb (StatusCode resp =? 200) then
            let respError :=
              fst (json_Unmarshal_errorResponse resBytes
                     errorResponse_zero) in
            ret (Some ("error " +:+ itoa (Code respError) +:+
                       " from server: " +:+ Message respError))
          else
            let res :=
              fst (json_Unmarshal_authResponse resBytes
                     authResponse_zero) in
            let* _ := modify_self (set_accessToken (AccessToken res)) in
            let* _ := modify_self (set_refreshToken (RefreshToken res)) in
            let* n := get_self in
            let tokenInfo := parseTokenInfo (accessToken n) in
            let* _ := modify_self
                        (set_tokenRefreshTime (Rat (Payload tokenInfo))) in
            let* _ := modify_self
                        (set_tokenExpirationTime
                           (Exp (Payload tokenInfo))) in
            ret None
      end
  end.

Definition CheckRefresh : M error :=
  let* t := time_Now in
  let now := uint32 (time.Unix t) in
  let* n := get_self in
  if tokenRefreshTime n <? now then
    let* err := refreshNow in
    match err with
    | Some e => ret (Some ("unable to refresh token: " +:+ e))
    | None => ret None
    end
  else ret None.

Definition request (method url : string) (useCache : bool) (data : string)
  : M (string * error) :=
  let* hit := (if useCache then requestCache_Get url
               else ret (EmptyString, false)) in
  if snd hit then ret (fst hit, None)
  else
    let* err := CheckRefresh in
    match err with
    | Some e => ret (EmptyString, Some e)
    | None =>
        let body := if String.eqb method "POST" then Some data else None in
        match http_NewRequest method url body with
        | inl err => ret (EmptyString, Some ("unable to make request: " +:+ err))
        | inr req =>
            let* n := get_self in
            let req := Header_Add req "Authorization"
                         ("nadeo_v1 t=" +:+ accessToken n) in
            let req := Header_Add req "Accept" "application/json" in
            let req := Header_Add req "Content-Type" "application/json" in
            let* r := client_Do req in
            match r with
            | Failed err =>
                ret (EmptyString, Some ("unable to perform request: " +:+ err))
            | Answered resp =>
                match ioutil_ReadAll (Body resp) with
                | (_, Some err) =>
                    ret (EmptyString,
                         Some ("unable to read from stream: " +:+ err))
                | (resBytes, None) =>
                    if negb (StatusCode resp =? 200) then
                      ret (EmptyString,
                           Some ("error from server: " +:+ resBytes))
                    else
                      let* _ := (if useCache
                                 then requestCache_Set url resBytes
                                        cache.DefaultExpiration
                                 else ret tt) in
                      ret (resBytes, None)
                end
            end
        end
    end.

Definition Get (url : string) (useCache : bool) : M (string * error) :=
  request "GET" url useCache EmptyString.

Definition Post (url data : string) : M (string * error) :=
  request "POST" url false data.
End Client.

#[global] Arguments makeslice_panic {E} n : simpl never.

(** [NewNadeoWithAudience] and [NewNadeo] *)
Definition NewNadeoWithAudience (audience : string) : nadeo :=
  {| audience := audience; accessToken := EmptyString;
     refreshToken := EmptyString; tokenRefreshTime := 0;
     tokenExpirationTime := 0;
     requestCache := cache.New (1 * time.Minute) (5 * time.Minute) |}.

Definition NewNadeo : nadeo := NewNadeoWithAudience "NadeoLiveServices".

(** ** What one exchange does, in closed form

    The three authentication calls end in the same lines: perform the
    request, read the body, turn a status other than 200 into an error,
    otherwise store the tokens.  [exchange] states the effect of those lines
    as one case analysis on the server's answer. *)
Section Exchange.
Context {E : Externals}.

(** The bytes handed to [json.Unmarshal] by the authentication calls. *)
Definition resBytes_of (resp : Response) : string :=
  io_ReadFull (content (Body resp)) (Z.to_nat (ContentLength resp)).

Definition decode_error (resp : Response) : errorResponse :=
  fst (json_Unmarshal_errorResponse (resBytes_of resp) errorResponse_zero).

Definition decode_tokens (resp : Response) : authResponse :=
  fst (json_Unmarshal_authResponse (resBytes_of resp) authResponse_zero).

(** The text of the error built from a decoded error envelope. *)
Definition server_error_text (e : errorResponse) : string :=
  "error " +:+ itoa (Code e) +:+ " from server: " +:+ Message e.

(** The session after the four assignments of a successful exchange. *)
Definition store_tokens (res : authResponse) (n : nadeo) : nadeo :=
  {| audience := audience n;
     accessToken := AccessToken res;
     refreshToken := RefreshToken res;
     tokenRefreshTime := Rat (Payload (parseTokenInfo (AccessToken res)));
     tokenExpirationTime := Exp (Payload (parseTokenInfo (AccessToken res)));
     requestCache := requestCache n |}.

Definition exchange (req : Request) : M error :=
  fun st =>
    let st' := with_world (record req (world st)) st in
    match server (world st) (sent (world st)) req with
    | Failed err => (Ret (Some ("unable to perform request: " +:+ err)), st')
    | Answered resp =>
        match makeslice_panic (ContentLength resp) with
        | Some msg => (Panic msg, st')
        | None =>
            if StatusCode resp =? 200 then
              (Ret None,
               with_self (store_tokens (decode_tokens resp) (self st)) st')
            else (Ret (Some (server_error_text (decode_error resp))), st')
        end
    end.

(** The requests the four kinds of call build. *)
Definition ubiservices_request (n : nadeo) (ticket : string) : Request :=
  {| Method := "POST"; URL := endpoint_ubiservices;
     Header := [("Content-Type", "application/json");
                ("Authorization", "ubi_v1 t=" +:+ ticket)];
     ReqBody := Some (audience_body n) |}.

Definition basic_request (n : nadeo) (username password : string) : Request :=
  {| Method := "POST"; URL := endpoint_basic;
     Header := [("Content-Type", "application/json");
                ("Authorization", basicAuth username password)];
     ReqBody := Some (audience_body n) |}.

Definition refresh_request (n : nadeo) : Request :=
  {| Method := "POST"; URL := endpoint_refresh;
     Header := [("Authorization", "nadeo_v1 t=" +:+ refreshToken n)];
     ReqBody := None |}.

Definition resource_request (method url data : string) (n : nadeo) : Request :=
  {| Method := method; URL := url;
     Header := [("Authorization", "nadeo_v1 t=" +:+ accessToken n);
                ("Accept", "application/json");
                ("Content-Type", "application/json")];
     ReqBody := if String.eqb method "POST" then Some data else None |}.

(** The seconds [CheckRefresh] compares with [tokenRefreshTime]: the next
    reading of the clock, cut to 32 bits. *)
Definition now32 (w : World) : Z := uint32 (time.Unix (clock w (ticks w))).

(** What [requestCache.Get] answers at a reading [t] of the clock. *)
Definition cache_lookup (c : cache.Cache) (k : string) (t : Z)
  : option string :=
  match cache.items c !! k with
  | None => None
  | Some item =>
      if (0 <? cache.Expiration item) &&
         (cache.Expiration item <? time.UnixNano t)
      then None else Some (cache.Object item)
  end.

(** Whether [requestCache.Get] reads the clock: only for an item that is
    present and can expire. *)
Definition Get_reads_clock (c : cache.Cache) (k : string) : bool :=
  match cache.items c !! k with
  | Some item => 0 <? cache.Expiration item
  | None => false
  end.

(** The state [requestCache.Get] leaves. *)
Definition after_Get (k : string) (st : State) : State :=
  if Get_reads_clock (requestCache (self st)) k
  then with_world (tick (world st)) st else st.

(** The lines of [request] below the refresh check. *)
Definition dispatch (method url : string) (useCache : bool) (data : string)
  : M (string * error) :=
  fun st =>
    match http_NewRequest_err method url with
    | Some err => (Ret (EmptyString, Some ("unable to make request: " +:+ err)), st)
    | None =>
        let req := resource_request method url data (self st) in
        let st' := with_world (record req (world st)) st in
        match server (world st) (sent (world st)) req with
        | Failed err =>
            (Ret (EmptyString, Some ("unable to perform request: " +:+ err)), st')
        | Answered resp =>
            match fault (Body resp) with
            | Some err =>
                (Ret (EmptyString, Some ("unable to read from stream: " +:+ err)),
                 st')
            | None =>
                let body := content (Body resp) in
                if StatusCode resp =? 200 then
                  if useCache then
                    (let* _ := requestCache_Set url body
                                 cache.DefaultExpiration in
                     ret (body, None)) st'
                  else (Ret (body, None), st')
                else (Ret (EmptyString, Some ("error from server: " +:+ body)), st')
            end
        end
    end.

(** The refresh check of [request], followed by [k] when it passes. *)
Definition after_refresh (k : M (string * error)) : M (string * error) :=
  let* err := CheckRefresh in
  match err with
  | Some e => ret (EmptyString, Some e)
  | None => k
  end.

(** All four session fields are stored from one answer of the server, or
    none of them changes. *)
Definition all_or_nothing (op : M error) : Prop :=
  forall st : State,
    match op st with
    | (Ret None, st') =>
        exists req resp,
          sent (world st') = req :: sent (world st) /\
          server (world st) (sent (world st)) req = Answered resp /\
          self st' = store_tokens (decode_tokens resp) (self st)
    | (_, st') => self st' = self st
    end.


(** The same state with another response cache, and what it means for a
    call neither to read nor to write the cache: run from a state with any
    other cache it gives the same result and leaves that cache in place. *)
Definition swap_cache (c : cache.Cache) (st : State) : State :=
  with_self (set_requestCache c (self st)) st.

Definition ignores_cache {A : Type} (op : M A) : Prop :=
  forall (c : cache.Cache) (st : State),
    op (swap_cache c st) = (fst (op st), swap_cache c (snd (op st))).

(** What no method changes: the audience and the cache's default
    time-to-live, both set by [NewNadeoWithAudience]. *)
Definition session_frame (n : nadeo) : string * Z :=
  (audience n, cache.defaultExpiration (requestCache n)).

Definition keeps_frame {A : Type} (op : M A) : Prop :=
  forall st : State,
    session_frame (self (snd (op st))) = session_frame (self st).

(** The two times of the session are those decoded from its access token. *)
Definition times_consistent (n : nadeo) : Prop :=
  tokenRefreshTime n = Rat (Payload (parseTokenInfo (accessToken n))) /\
  tokenExpirationTime n = Exp (Payload (parseTokenInfo (accessToken n))).

(** The state after [k] calls of [CheckRefresh] in a row. *)
Fixpoint CheckRefresh_times (k : nat) (st : State) : State :=
  match k with
  | O => st
  | S k' => CheckRefresh_times k' (snd (CheckRefresh st))
  end.

(** The same world, [k] readings of the clock later. *)
Definition ticked (k : nat) (st : State) : State :=
  with_world {| clock := clock (world st); ticks := (ticks (world st) + k)%nat;
                server := server (world st); sent := sent (world st) |} st.

(** The requests performed between two states: the log of [st'] is [new]
    put before the log of [st]. *)
Definition sent_since (st st' : State) (new : list Request) : Prop :=
  sent (world st') = (new ++ sent (world st))%list.
End Exchange.

(** ** A concrete environment

    One implementation of the interface and a scripted server, on which the
    statements below are instantiated.  The decoders recognise a handful of
    fixed bodies only. *)
Module Demo.
Definition parse (tok : string) : TokenInfo :=
  if String.eqb tok "access-2"
  then {| Payload := {| Rat := 2000; Exp := 3000 |} |}
  else if String.eqb tok "access-stale"
  then {| Payload := {| Rat := 10; Exp := 3000 |} |}
  else {| Payload := {| Rat := 0; Exp := 0 |} |}.

Definition unmarshal_error (b : string) (v : errorResponse)
  : errorResponse * error :=
  if String.eqb b "BAD-CREDENTIALS"
  then ({| Code := 401; Message := "Invalid credentials." |}, None)
  else (v, Some "invalid character").

(** A body whose accessToken is a string and whose refreshToken is a
    number: the decoder fills in the first and reports the second. *)
Definition half_typed_body : string :=
  "{" +:+ dquote +:+ "accessToken" +:+ dquote +:+ ":" +:+ dquote +:+
  "access-2" +:+ dquote +:+ "," +:+ dquote +:+ "refreshToken" +:+ dquote +:+
  ":5}".

Definition unmarshal_auth (b : string) (v : authResponse)
  : authResponse * error :=
  if String.eqb b "TOKENS-2"
  then ({| AccessToken := "access-2"; RefreshToken := "refresh-2" |}, None)
  else if String.eqb b "TOKENS-STALE"
  then ({| AccessToken := "access-stale"; RefreshToken := "refresh-2" |}, None)
  else if String.eqb b half_typed_body
  then ({| AccessToken := "access-2"; RefreshToken := RefreshToken v |},
        Some "json: cannot unmarshal number into Go struct field authResponse.refreshToken of type string")
  else (v, Some "invalid character").

(** The ticket service hands out a ticket for one password only. *)
Definition login (u : string) (email password : string) (w : World)
  : (string * error) * World :=
  if String.eqb password "hunter2"
  then (("ticket-of-" +:+ email, None), w)
  else ((u, Some "login refused"), w).

Definition externals : Externals :=
  {| parseTokenInfo := parse;
     json_Unmarshal_errorResponse := unmarshal_error;
     json_Unmarshal_authResponse := unmarshal_auth;
     makeslice_refused :=
       fun n => if 2 ^ 48 <? n
                then Some "runtime error: makeslice: len out of range"
                else None;
     http_NewRequest_err := fun _ _ => None;
     basicAuth := fun u p => "Basic " +:+ u +:+ ":" +:+ p;
     Ubi := string;
     NewUbi := fun _ => EmptyString;
     Ubi_Authenticate := login;
     Ubi_GetTicket := fun u => u |}.

(** A complete answer: the declared length is that of the body. *)
Definition answer (status : Z) (body : string) : DoResult :=
  Answered {| StatusCode := status;
              ContentLength := Z.of_nat (String.length body);
              Body := {| content := body; fault := None |} |}.

(** The same answer sent without a declared length. *)
Definition answer_unknown_length (status : Z) (body : string) : DoResult :=
  Answered {| StatusCode := status; ContentLength := -1;
              Body := {| content := body; fault := None |} |}.

(** A server that accepts the refresh token [refresh-1] and one ticket, and
    serves one resource. *)
Definition serve (history : list Request) (req : Request) : DoResult :=
  if String.eqb (URL req) endpoint_refresh then
    if decide (Header req = [("Authorization", "nadeo_v1 t=refresh-1")])
    then answer 200 "TOKENS-2"
    else answer 401 "BAD-CREDENTIALS"
  else if String.eqb (URL req) endpoint_ubiservices then
    if decide (Header req = [("Content-Type", "application/json");
                             ("Authorization", "ubi_v1 t=ticket-of-ann")])
    then answer 200 "TOKENS-2"
    else answer 401 "BAD-CREDENTIALS"
  else if String.eqb (URL req) endpoint_basic then
    answer_unknown_length 401 "BAD-CREDENTIALS"
  else if String.eqb (URL req) "https://live/maps" then answer 200 "[1,2,3]"
  else answer 404 "no such map".

(** A server whose refreshed token is already due, and one whose 200 answer
    is not a token envelope. *)
Definition serve_stale (history : list Request) (req : Request) : DoResult :=
  answer 200 "TOKENS-STALE".
Definition serve_garbage (history : list Request) (req : Request) : DoResult :=
  answer 200 "<html>".

(** A server that cannot be reached, and one whose body breaks off. *)
Definition serve_down (history : list Request) (req : Request) : DoResult :=
  Failed "connection refused".
Definition serve_broken (history : list Request) (req : Request) : DoResult :=
  Answered {| StatusCode := 200; ContentLength := 7;
              Body := {| content := "[1,2";
                         fault := Some "unexpected EOF" |} |}.

(** A server that answers the resource with the number of requests it saw
    before, so that successive bodies differ. *)
Definition serve_counting (history : list Request) (req : Request)
  : DoResult :=
  if String.eqb (URL req) endpoint_refresh then answer 200 "TOKENS-2"
  else answer 200 ("seen " +:+ itoa (Z.of_nat (length history))).

(** The clock reads 1000 s, 1001 s, ... *)
Definition clock_from_1000 (i : nat) : Z := (1000 + Z.of_nat i) * time.Second.

Definition world_with (srv : list Request -> Request -> DoResult) : World :=
  {| clock := clock_from_1000; ticks := 0; server := srv; sent := [] |}.

(** A session whose tokens are to be refreshed after second [rat]. *)
Definition session (rat : Z) : nadeo :=
  {| audience := "NadeoLiveServices"; accessToken := "access-1";
     refreshToken := "refresh-1"; tokenRefreshTime := rat;
     tokenExpirationTime := 3000;
     requestCache := cache.New (1 * time.Minute) (5 * time.Minute) |}.

Definition state (rat : Z) : State :=
  {| self := session rat; world := world_with serve |}.

Definition fresh_state : State :=
  {| self := NewNadeo; world := world_with serve |}.

(** The same implementation, except that [http.NewRequest] refuses one
    target. *)
Definition externals_strict : Externals :=
  {| parseTokenInfo := parse;
     json_Unmarshal_errorResponse := unmarshal_error;
     json_Unmarshal_authResponse := unmarshal_auth;
     makeslice_refused :=
       fun n => if 2 ^ 48 <? n
                then Some "runtime error: makeslice: len out of range"
                else None;
     http_NewRequest_err :=
       fun _ url => if String.eqb url ":maps"
                    then Some "missing protocol scheme" else None;
     basicAuth := fun u p => "Basic " +:+ u +:+ ":" +:+ p;
     Ubi := string;
     NewUbi := fun _ => EmptyString;
     Ubi_Authenticate := login;
     Ubi_GetTicket := fun u => u |}.

(** A session, not due for a refresh, whose cache holds one body for the
    maps target, to expire at nanosecond [expiry]. *)
Definition session_with_entry (expiry : Z) : nadeo :=
  set_requestCache
    (cache.with_items (cache.New (1 * time.Minute) (5 * time.Minute))
       {[ "https://live/maps" :=
            {| cache.Object := "[0]"; cache.Expiration := expiry |} ]})
    (session 5000).

Definition state_with_entry (expiry : Z)
  (srv : list Request -> Request -> DoResult) : State :=
  {| self := session_with_entry expiry; world := world_with srv |}.

(** A clock past the 32-bit wrap of the seconds: 2^32 + 5 s, and on. *)
Definition clock_after_wrap (i : nat) : Z :=
  (2 ^ 32 + 5 + Z.of_nat i) * time.Second.

Definition state_after_wrap : State :=
  {| self := session 1000;
     world := {| clock := clock_after_wrap; ticks := 0; server := serve;
                 sent := [] |} |}.

(** A server whose 200 answer is the half-typed body. *)
Definition serve_half_typed (history : list Request) (req : Request)
  : DoResult :=
  answer 200 half_typed_body.

(** A session fresh from [NewNadeo] when the clock's seconds are 2^32, on
    7 February 2106. *)
Definition clock_at_wrap (i : nat) : Z := (2 ^ 32 + Z.of_nat i) * time.Second.

Definition fresh_state_at_wrap : State :=
  {| self := NewNadeo;
     world := {| clock := clock_at_wrap; ticks := 0; server := serve;
                 sent := [] |} |}.
End Demo.

(** * Properties *)

(** ** The Go primitives on small inputs *)

Example itoa_401 : itoa 401 = "401".
Proof. reflexivity. Qed.

Example itoa_zero : itoa 0 = "0".
Proof. reflexivity. Qed.

Example itoa_negative : itoa (-7) = "-7".
Proof. reflexivity. Qed.

Example uint32_wraps : uint32 (2 ^ 32 + 5) = 5.
Proof. reflexivity. Qed.

Example int64_last : int64 (2 ^ 63 - 1) = 2 ^ 63 - 1.
Proof. reflexivity. Qed.

Example int64_wraps : int64 (2 ^ 63) = - 2 ^ 63.
Proof. reflexivity. Qed.

Lemma int64_small (z : Z) : - 2 ^ 63 <= z < 2 ^ 63 -> int64 z = z.
Proof. intros Hz. unfold int64. rewrite Z.mod_small; lia. Qed.

Lemma int64_range (z : Z) : - 2 ^ 63 <= int64 z < 2 ^ 63.
Proof.
  unfold int64.
  pose proof (Z.mod_pos_bound (z + 2 ^ 63) (2 ^ 64) ltac:(lia)). lia.
Qed.

(** The seconds the refresh check compares do not depend on whether the
    [int64] of the seconds wrapped. *)
Lemma uint32_int64 (z : Z) : uint32 (int64 z) = uint32 z.
Proof.
  unfold uint32, int64.
  rewrite <- (Zminus_mod_idemp_l ((z + 2 ^ 63) mod 2 ^ 64)).
  replace (((z + 2 ^ 63) mod 2 ^ 64) mod 2 ^ 32)
    with ((z + 2 ^ 63) mod 2 ^ 32).
  - rewrite Zminus_mod_idemp_l. f_equal. lia.
  - change (2 ^ 64) with (2 ^ 32 * 2 ^ 32).
    rewrite Z.rem_mul_r by lia.
    rewrite Z.add_comm, Z.mul_comm, Z_mod_plus_full.
    now rewrite Z.mod_mod by lia.
Qed.

Example io_ReadFull_truncates : io_ReadFull "abcdef" 4 = "abcd".
Proof. reflexivity. Qed.

Example io_ReadFull_pads :
  io_ReadFull "ab" 4 = String "a" (String "b" (String zero (String zero EmptyString))).
Proof. reflexivity. Qed.

Lemma io_ReadFull_exact (r : string) : io_ReadFull r (String.length r) = r.
Proof. induction r as [|c r IH]; cbn; [reflexivity|]. now rewrite IH. Qed.

Lemma io_ReadFull_length (r : string) (n : nat) :
  String.length (io_ReadFull r n) = n.
Proof.
  revert r. induction n as [|n IH]; intros r; [reflexivity|].
  destruct r; cbn; now rewrite IH.
Qed.

(** For an answer that arrives whole with the length it declared, the bytes
    the authentication calls decode are the body. *)
Lemma resBytes_of_complete (resp : Response) :
  ContentLength resp = Z.of_nat (String.length (content (Body resp))) ->
  resBytes_of resp = content (Body resp).
Proof.
  intros Hlen. unfold resBytes_of. rewrite Hlen, Nat2Z.id.
  apply io_ReadFull_exact.
Qed.

Example make_bytes_negative {E : Externals} (st : State) :
  make_bytes (-1) st
  = (Panic "runtime error: makeslice: len out of range", st).
Proof. reflexivity. Qed.

Example NewNadeo_default_ttl :
  cache.defaultExpiration (requestCache NewNadeo) = 60000000000.
Proof. reflexivity. Qed.

Example NewNadeo_audience_body :
  audience_body NewNadeo
  = "{" +:+ dquote +:+ "audience" +:+ dquote +:+ ":" +:+ dquote +:+
    "NadeoLiveServices" +:+ dquote +:+ "}".
Proof. reflexivity. Qed.

(** ** The calls in closed form *)
Section Runs.
Context {E : Externals}.

Ltac run_exchange :=
  unfold exchange, bind, client_Do, make_bytes, panic, ret, get_self,
    modify_self, ubiservices_request, basic_request, refresh_request,
    Header_Add; cbn;
  match goal with
  | |- context [server ?w ?h ?r] => destruct (server w h r)
  end; cbn; [reflexivity|];
  match goal with
  | |- context [makeslice_panic (ContentLength ?r)] =>
      destruct (makeslice_panic (ContentLength r)); cbn; [reflexivity|];
      destruct (StatusCode r =? 200); reflexivity
  end.

Lemma AuthenticateUbiTicket_run (ticket : string) (st : State) :
  http_NewRequest_err "POST" endpoint_ubiservices = None ->
  AuthenticateUbiTicket ticket st
  = exchange (ubiservices_request (self st) ticket) st.
Proof.
  intros Hurl. unfold AuthenticateUbiTicket, http_NewRequest.
  rewrite Hurl. run_exchange.
Qed.

Lemma Authenticate_run (username password : string) (st : State) :
  http_NewRequest_err "POST" endpoint_basic = None ->
  Authenticate username password st
  = exchange (basic_request (self st) username password) st.
Proof.
  intros Hurl. unfold Authenticate, http_NewRequest.
  rewrite Hurl. run_exchange.
Qed.

Lemma refreshNow_run (st : State) :
  http_NewRequest_err "POST" endpoint_refresh = None ->
  refreshNow st = exchange (refresh_request (self st)) st.
Proof.
  intros Hurl. unfold refreshNow, http_NewRequest.
  rewrite Hurl. run_exchange.
Qed.

(** When [http.NewRequest] refuses the endpoint nothing is sent and nothing
    is stored. *)
Lemma AuthenticateUbiTicket_no_request ticket st err :
  http_NewRequest_err "POST" endpoint_ubiservices = Some err ->
  AuthenticateUbiTicket ticket st
  = (Ret (Some ("unable to make request: " +:+ err)), st).
Proof.
  intros Hurl. unfold AuthenticateUbiTicket, http_NewRequest.
  rewrite Hurl. reflexivity.
Qed.

Lemma Authenticate_no_request username password st err :
  http_NewRequest_err "POST" endpoint_basic = Some err ->
  Authenticate username password st
  = (Ret (Some ("unable to make request: " +:+ err)), st).
Proof.
  intros Hurl. unfold Authenticate, http_NewRequest.
  rewrite Hurl. reflexivity.
Qed.

Lemma refreshNow_no_request st err :
  http_NewRequest_err "POST" endpoint_refresh = Some err ->
  refreshNow st = (Ret (Some ("unable to make request: " +:+ err)), st).
Proof.
  intros Hurl. unfold refreshNow, http_NewRequest.
  rewrite Hurl. reflexivity.
Qed.
End Runs.

Section Dispatcher.
Context {E : Externals}.

Lemma CheckRefresh_run (st : State) :
  CheckRefresh st
  = let st1 := with_world (tick (world st)) st in
    if tokenRefreshTime (self st) <? now32 (world st) then
      match refreshNow st1 with
      | (Ret (Some e), st2) =>
          (Ret (Some ("unable to refresh token: " +:+ e)), st2)
      | (Ret None, st2) => (Ret None, st2)
      | (Panic msg, st2) => (Panic msg, st2)
      end
    else (Ret None, st1).
Proof.
  unfold CheckRefresh, bind, time_Now, get_self, now32. cbn.
  destruct (tokenRefreshTime (self st) <? _); [|reflexivity].
  destruct (refreshNow _) as [[[e|]|msg] st2]; reflexivity.
Qed.

Lemma requestCache_Get_run (k : string) (st : State) :
  requestCache_Get k st
  = (Ret (match cache_lookup (requestCache (self st)) k
                  (clock (world st) (ticks (world st))) with
          | Some v => (v, true)
          | None => (EmptyString, false)
          end),
     after_Get k st).
Proof.
  unfold requestCache_Get, cache_lookup, after_Get, Get_reads_clock, bind,
    get_self, time_Now, ret. cbn.
  destruct (cache.items (requestCache (self st)) !! k) as [item|];
    [|reflexivity].
  destruct (0 <? cache.Expiration item); cbn; [|reflexivity].
  destruct (cache.Expiration item <? _); reflexivity.
Qed.

Lemma after_Get_self k st : self (after_Get k st) = self st.
Proof. unfold after_Get. destruct (Get_reads_clock _ _); reflexivity. Qed.

Lemma after_Get_sent k st : sent (world (after_Get k st)) = sent (world st).
Proof. unfold after_Get. destruct (Get_reads_clock _ _); reflexivity. Qed.

Lemma after_Get_server k st :
  server (world (after_Get k st)) = server (world st).
Proof. unfold after_Get. destruct (Get_reads_clock _ _); reflexivity. Qed.

(** [request] in closed form: the cache first, then the refresh check, then
    the HTTP call. *)
Lemma request_run method url useCache data st :
  request method url useCache data st
  = if useCache then
      match cache_lookup (requestCache (self st)) url
              (clock (world st) (ticks (world st))) with
      | Some v => (Ret (v, None), after_Get url st)
      | None =>
          after_refresh (dispatch method url true data) (after_Get url st)
      end
    else after_refresh (dispatch method url false data) st.
Proof.
  assert (Htail : forall c st1,
    (let* err := CheckRefresh in
     match err with
     | Some e => ret (EmptyString, Some e)
     | None =>
         match http_NewRequest method url
                 (if String.eqb method "POST" then Some data else None) with
         | inl err =>
             ret (EmptyString, Some ("unable to make request: " +:+ err))
         | inr req =>
             let* n := get_self in
             let* r := client_Do
                         (Header_Add
                            (Header_Add
                               (Header_Add req "Authorization"
                                  ("nadeo_v1 t=" +:+ accessToken n))
                               "Accept" "application/json")
                            "Content-Type" "application/json") in
             match r with
             | Failed err =>
                 ret (EmptyString,
                      Some ("unable to perform request: " +:+ err))
             | Answered resp =>
                 match ioutil_ReadAll (Body resp) with
                 | (_, Some err) =>
                     ret (EmptyString,
                          Some ("unable to read from stream: " +:+ err))
                 | (resBytes, None) =>
                     if negb (StatusCode resp =? 200) then
                       ret (EmptyString,
                            Some ("error from server: " +:+ resBytes))
                     else
                       let* _ := (if c : bool
                                  then requestCache_Set url resBytes
                                         cache.DefaultExpiration
                                  else ret tt) in
                       ret (resBytes, None)
                 end
             end
         end
     end : M (string * error)) st1
    = after_refresh (dispatch method url c data) st1).
  { intros c st1. unfold after_refresh, bind.
    destruct (CheckRefresh st1) as [[[e|]|msg] st2]; try reflexivity.
    unfold dispatch, http_NewRequest, get_self, client_Do, ret,
      ioutil_ReadAll, resource_request, Header_Add, bind. cbn.
    destruct (http_NewRequest_err method url); [reflexivity|]. cbn.
    match goal with
    | |- context [server ?w ?h ?r] => destruct (server w h r) as [err|resp]
    end; cbn; [reflexivity|].
    destruct (fault (Body resp)); [reflexivity|].
    destruct (StatusCode resp =? 200); cbn; [|reflexivity].
    destruct c; reflexivity. }
  unfold request. unfold bind at 1. destruct useCache.
  - rewrite requestCache_Get_run.
    destruct (cache_lookup _ _ _); cbn [snd fst]; [reflexivity|].
    exact (Htail true _).
  - unfold ret at 1. cbn [snd fst]. exact (Htail false _).
Qed.
End Dispatcher.

(** ** Authentication and refresh exchanges *)
Section ExchangeProperties.
Context {E : Externals}.

Lemma exchange_all_or_nothing (req : State -> Request) :
  all_or_nothing (fun st => exchange (req st) st).
Proof.
  intros st. unfold exchange.
  destruct (server (world st) (sent (world st)) (req st)) as [err|resp] eqn:Hsrv;
    [reflexivity|].
  destruct (makeslice_panic (ContentLength resp)); [reflexivity|].
  destruct (StatusCode resp =? 200); [|reflexivity].
  exists (req st), resp. cbn. auto.
Qed.

(** An answer whose status is not 200, the read buffer allocated, becomes
    the error text built from the decoded envelope; the session is
    untouched. *)
Lemma exchange_rejected req st resp :
  server (world st) (sent (world st)) req = Answered resp ->
  makeslice_panic (ContentLength resp) = None ->
  StatusCode resp <> 200 ->
  exchange req st
  = (Ret (Some (server_error_text (decode_error resp))),
     with_world (record req (world st)) st).
Proof.
  intros Hsrv Hlen Hcode. unfold exchange. rewrite Hsrv, Hlen.
  destruct (Z.eqb_spec (StatusCode resp) 200); [contradiction|reflexivity].
Qed.

Lemma exchange_accepted req st resp :
  server (world st) (sent (world st)) req = Answered resp ->
  makeslice_panic (ContentLength resp) = None ->
  StatusCode resp = 200 ->
  exchange req st
  = (Ret None,
     with_self (store_tokens (decode_tokens resp) (self st))
       (with_world (record req (world st)) st)).
Proof.
  intros Hsrv Hlen Hcode. unfold exchange. rewrite Hsrv, Hlen, Hcode.
  reflexivity.
Qed.

Lemma exchange_unknown_length req st resp :
  server (world st) (sent (world st)) req = Answered resp ->
  ContentLength resp < 0 ->
  exchange req st
  = (Panic "runtime error: makeslice: len out of range",
     with_world (record req (world st)) st).
Proof.
  intros Hsrv Hlen. unfold exchange, makeslice_panic. rewrite Hsrv.
  destruct (Z.ltb_spec (ContentLength resp) 0); [reflexivity|lia].
Qed.

Lemma exchange_sent req st :
  sent (world (snd (exchange req st))) = req :: sent (world st).
Proof.
  unfold exchange.
  destruct (server _ _ _) as [err|resp]; [reflexivity|].
  destruct (makeslice_panic (ContentLength resp)); [reflexivity|].
  destruct (StatusCode resp =? 200); reflexivity.
Qed.


End ExchangeProperties.

Section ErrorSurfacing.
Context {E : Externals}.

(** For an answer whose read buffer is allocated, the three calls report a
    status other than 200 as the decoded envelope's code and message, and an
    envelope that [json.Unmarshal] rejects without filling anything in as
    code 0 and an empty message. *)
Lemma rejection_surfaced ticket username password st resp :
  makeslice_panic (ContentLength resp) = None ->
  StatusCode resp <> 200 ->
  let text := "error " +:+ itoa (Code (decode_error resp)) +:+
              " from server: " +:+ Message (decode_error resp) in
  (http_NewRequest_err "POST" endpoint_ubiservices = None ->
   server (world st) (sent (world st))
     (ubiservices_request (self st) ticket) = Answered resp ->
   fst (AuthenticateUbiTicket ticket st) = Ret (Some text)) /\
  (http_NewRequest_err "POST" endpoint_basic = None ->
   server (world st) (sent (world st))
     (basic_request (self st) username password) = Answered resp ->
   fst (Authenticate username password st) = Ret (Some text)) /\
  (http_NewRequest_err "POST" endpoint_refresh = None ->
   server (world st) (sent (world st)) (refresh_request (self st))
     = Answered resp ->
   fst (refreshNow st) = Ret (Some text)).
Proof.
  intros Hlen Hcode text. split; [|split]; intros Hurl Hsrv.
  - rewrite (AuthenticateUbiTicket_run _ _ Hurl).
    rewrite (exchange_rejected _ _ _ Hsrv Hlen Hcode). reflexivity.
  - rewrite (Authenticate_run _ _ _ Hurl).
    rewrite (exchange_rejected _ _ _ Hsrv Hlen Hcode). reflexivity.
  - rewrite (refreshNow_run _ Hurl).
    rewrite (exchange_rejected _ _ _ Hsrv Hlen Hcode). reflexivity.
Qed.

Lemma undecodable_envelope_text resp err :
  json_Unmarshal_errorResponse (resBytes_of resp) errorResponse_zero
  = (errorResponse_zero, Some err) ->
  server_error_text (decode_error resp) = "error 0 from server: ".
Proof. intros H. unfold decode_error. rewrite H. reflexivity. Qed.

(** C4. When the server answers an authentication or refresh request with a
    status other than 200 and without a declared length (ContentLength -1),
    the call does not return an error built from the envelope: allocating
    the read buffer panics before the status is looked at. *)
Theorem rejection_of_unknown_length_panics
  (ticket username password : string) (st : State) (resp : Response) :
  StatusCode resp <> 200 ->
  ContentLength resp < 0 ->
  (http_NewRequest_err "POST" endpoint_ubiservices = None ->
   server (world st) (sent (world st))
     (ubiservices_request (self st) ticket) = Answered resp ->
   fst (AuthenticateUbiTicket ticket st)
   = Panic "runtime error: makeslice: len out of range") /\
  (http_NewRequest_err "POST" endpoint_basic = None ->
   server (world st) (sent (world st))
     (basic_request (self st) username password) = Answered resp ->
   fst (Authenticate username password st)
   = Panic "runtime error: makeslice: len out of range") /\
  (http_NewRequest_err "POST" endpoint_refresh = None ->
   server (world st) (sent (world st)) (refresh_request (self st))
     = Answered resp ->
   fst (refreshNow st)
   = Panic "runtime error: makeslice: len out of range").
Proof.
  intros _ Hlen. split; [|split]; intros Hurl Hsrv.
  - rewrite (AuthenticateUbiTicket_run _ _ Hurl).
    rewrite (exchange_unknown_length _ _ _ Hsrv Hlen). reflexivity.
  - rewrite (Authenticate_run _ _ _ Hurl).
    rewrite (exchange_unknown_length _ _ _ Hsrv Hlen). reflexivity.
  - rewrite (refreshNow_run _ Hurl).
    rewrite (exchange_unknown_length _ _ _ Hsrv Hlen). reflexivity.
Qed.

(** C10 (as amended). When an authentication or refresh exchange is
    answered with status 200, the read buffer allocated, then whatever error
    [json.Unmarshal] reports on the body, the call still returns nil and
    stores what the decoder left in the result: the fields it had filled in
    before the error, so both tokens empty only when it filled in nothing;
    the two times are those decoded from the access token stored. *)
Theorem undecodable_tokens_stored_silently
  (ticket username password : string) (st : State) (resp : Response)
  (res : authResponse) (err : error) :
  StatusCode resp = 200 ->
  makeslice_panic (ContentLength resp) = None ->
  json_Unmarshal_authResponse (resBytes_of resp) authResponse_zero
  = (res, err) ->
  let stored :=
    {| audience := audience (self st);
       accessToken := AccessToken res;
       refreshToken := RefreshToken res;
       tokenRefreshTime := Rat (Payload (parseTokenInfo (AccessToken res)));
       tokenExpirationTime := Exp (Payload (parseTokenInfo (AccessToken res)));
       requestCache := requestCache (self st) |} in
  (res = authResponse_zero ->
   accessToken stored = EmptyString /\ refreshToken stored = EmptyString /\
   tokenRefreshTime stored = Rat (Payload (parseTokenInfo EmptyString)) /\
   tokenExpirationTime stored = Exp (Payload (parseTokenInfo EmptyString))) /\
  (http_NewRequest_err "POST" endpoint_ubiservices = None ->
   server (world st) (sent (world st))
     (ubiservices_request (self st) ticket) = Answered resp ->
   fst (AuthenticateUbiTicket ticket st) = Ret None /\
   self (snd (AuthenticateUbiTicket ticket st)) = stored) /\
  (http_NewRequest_err "POST" endpoint_basic = None ->
   server (world st) (sent (world st))
     (basic_request (self st) username password) = Answered resp ->
   fst (Authenticate username password st) = Ret None /\
   self (snd (Authenticate username password st)) = stored) /\
  (http_NewRequest_err "POST" endpoint_refresh = None ->
   server (world st) (sent (world st)) (refresh_request (self st))
     = Answered resp ->
   fst (refreshNow st) = Ret None /\
   self (snd (refreshNow st)) = stored).
Proof.
  intros Hcode Hlen Hjson stored.
  assert (Hstore : store_tokens (decode_tokens resp) (self st) = stored).
  { unfold store_tokens, decode_tokens. rewrite Hjson. reflexivity. }
  split.
  { intros ->. repeat split. }
  split; [|split]; intros Hurl Hsrv.
  - rewrite (AuthenticateUbiTicket_run _ _ Hurl).
    rewrite (exchange_accepted _ _ _ Hsrv Hlen Hcode).
    split; [reflexivity|exact Hstore].
  - rewrite (Authenticate_run _ _ _ Hurl).
    rewrite (exchange_accepted _ _ _ Hsrv Hlen Hcode).
    split; [reflexivity|exact Hstore].
  - rewrite (refreshNow_run _ Hurl).
    rewrite (exchange_accepted _ _ _ Hsrv Hlen Hcode).
    split; [reflexivity|exact Hstore].
Qed.

(** C6 (as amended). The ticket flow posts to the token/ubiservices endpoint
    a request whose headers are Content-Type: application/json and
    Authorization: ubi_v1 t=<ticket>, and whose body is the JSON text naming
    the audience. *)
Theorem ticket_request_sent (ticket : string) (st : State) :
  http_NewRequest_err "POST" endpoint_ubiservices = None ->
  sent (world (snd (AuthenticateUbiTicket ticket st)))
  = {| Method := "POST";
       URL := "https://prod.trackmania.core.nadeo.online/v2/authentication/token/ubiservices";
       Header := [("Content-Type", "application/json");
                  ("Authorization", "ubi_v1 t=" +:+ ticket)];
       ReqBody := Some ("{" +:+ dquote +:+ "audience" +:+ dquote +:+ ":" +:+
                        dquote +:+ audience (self st) +:+ dquote +:+ "}") |}
    :: sent (world st).
Proof.
  intros Hurl. rewrite (AuthenticateUbiTicket_run _ _ Hurl).
  apply exchange_sent.
Qed.
End ErrorSurfacing.

(** ** The refresh check *)
Section Refresh.
Context {E : Externals}.

(** Not due: the clock is read, nothing else happens. *)
Lemma CheckRefresh_not_due st :
  now32 (world st) <= tokenRefreshTime (self st) ->
  CheckRefresh st = (Ret None, with_world (tick (world st)) st).
Proof.
  intros Hnow. rewrite CheckRefresh_run. cbv zeta.
  destruct (Z.ltb_spec (tokenRefreshTime (self st)) (now32 (world st)));
    [lia|reflexivity].
Qed.

(** Due: the outcome is that of the refresh exchange, its error wrapped. *)
Lemma CheckRefresh_due st :
  tokenRefreshTime (self st) < now32 (world st) ->
  http_NewRequest_err "POST" endpoint_refresh = None ->
  CheckRefresh st
  = match exchange (refresh_request (self st))
            (with_world (tick (world st)) st) with
    | (Ret (Some e), st2) =>
        (Ret (Some ("unable to refresh token: " +:+ e)), st2)
    | (Ret None, st2) => (Ret None, st2)
    | (Panic msg, st2) => (Panic msg, st2)
    end.
Proof.
  intros Hnow Hurl. rewrite CheckRefresh_run. cbv zeta.
  destruct (Z.ltb_spec (tokenRefreshTime (self st)) (now32 (world st)));
    [|lia].
  rewrite (refreshNow_run _ Hurl). reflexivity.
Qed.

Lemma CheckRefresh_due_sent st :
  tokenRefreshTime (self st) < now32 (world st) ->
  http_NewRequest_err "POST" endpoint_refresh = None ->
  sent (world (snd (CheckRefresh st)))
  = refresh_request (self st) :: sent (world st).
Proof.
  intros Hnow Hurl. rewrite (CheckRefresh_due _ Hnow Hurl).
  pose proof (exchange_sent (refresh_request (self st))
                (with_world (tick (world st)) st)) as Hsent.
  destruct (exchange _ _) as [[[e|]|msg] st2]; exact Hsent.
Qed.

(** C1 (as amended). [CheckRefresh] performs a refresh exchange, and only
    one, exactly when the current time in seconds (as a uint32) is strictly
    greater than refreshAfter; otherwise it returns success having only
    read the clock.  When the exchange is answered with status 200, the read
    buffer allocated, and the refresh-after time decoded from the new access
    token is not before the clock's next reading, the tokens are replaced
    and a second [CheckRefresh] right after is a no-op. *)
Theorem CheckRefresh_refreshes_past_deadline (st : State) :
  http_NewRequest_err "POST" endpoint_refresh = None ->
  (tokenRefreshTime (self st) < now32 (world st) ->
   sent (world (snd (CheckRefresh st)))
   = refresh_request (self st) :: sent (world st)) /\
  (now32 (world st) <= tokenRefreshTime (self st) ->
   CheckRefresh st = (Ret None, with_world (tick (world st)) st)) /\
  (forall resp : Response,
     tokenRefreshTime (self st) < now32 (world st) ->
     server (world st) (sent (world st)) (refresh_request (self st))
       = Answered resp ->
     StatusCode resp = 200 ->
     makeslice_panic (ContentLength resp) = None ->
     let st' := snd (CheckRefresh st) in
     now32 (world st')
       <= Rat (Payload (parseTokenInfo (AccessToken (decode_tokens resp)))) ->
     fst (CheckRefresh st) = Ret None /\
     self st' = store_tokens (decode_tokens resp) (self st) /\
     CheckRefresh st' = (Ret None, with_world (tick (world st')) st')).
Proof.
  intros Hurl. split; [|split].
  - intros Hnow. apply (CheckRefresh_due_sent _ Hnow Hurl).
  - apply CheckRefresh_not_due.
  - intros resp Hnow Hsrv Hcode Hlen.
    rewrite (CheckRefresh_due _ Hnow Hurl).
    rewrite (exchange_accepted (refresh_request (self st))
               (with_world (tick (world st)) st) resp Hsrv Hlen Hcode).
    cbn [snd fst]. intros Hnext.
    split; [reflexivity|]. split; [reflexivity|].
    apply CheckRefresh_not_due. exact Hnext.
Qed.

(** C7 (as amended). On a session that never authenticated (empty tokens,
    zero times), whenever the clock's seconds as a uint32 are past 0,
    [CheckRefresh] sends the refresh request with the empty refresh token;
    when the server rejects it with a status other than 200, the read buffer
    allocated, the error returned is that rejection's code and message
    behind the refresh prefix, and the session is untouched. *)
Theorem CheckRefresh_unauthenticated (st : State) :
  accessToken (self st) = EmptyString ->
  refreshToken (self st) = EmptyString ->
  tokenRefreshTime (self st) = 0 ->
  tokenExpirationTime (self st) = 0 ->
  0 < now32 (world st) ->
  http_NewRequest_err "POST" endpoint_refresh = None ->
  let req := {| Method := "POST"; URL := endpoint_refresh;
                Header := [("Authorization", "nadeo_v1 t=")];
                ReqBody := None |} in
  sent (world (snd (CheckRefresh st))) = req :: sent (world st) /\
  (forall resp : Response,
     server (world st) (sent (world st)) req = Answered resp ->
     StatusCode resp <> 200 ->
     makeslice_panic (ContentLength resp) = None ->
     CheckRefresh st
     = (Ret (Some ("unable to refresh token: " +:+
                   ("error " +:+ itoa (Code (decode_error resp)) +:+
                    " from server: " +:+ Message (decode_error resp)))),
        with_world (record req (tick (world st))) st)).
Proof.
  intros _ Hrt Hrat _ Hnow Hurl req.
  assert (Hreq : refresh_request (self st) = req).
  { unfold refresh_request, req. rewrite Hrt. reflexivity. }
  assert (Hdue : tokenRefreshTime (self st) < now32 (world st)) by lia.
  split.
  - rewrite (CheckRefresh_due_sent _ Hdue Hurl), Hreq. reflexivity.
  - intros resp Hsrv Hcode Hlen.
    rewrite (CheckRefresh_due _ Hdue Hurl), Hreq.
    rewrite (exchange_rejected req (with_world (tick (world st)) st) resp
               Hsrv Hlen Hcode).
    reflexivity.
Qed.

(** C9. [AuthenticateUbi] drops whatever error the ticket service reports:
    its result is that of [AuthenticateUbiTicket] on the ticket the service
    holds afterwards, be it empty. *)
Theorem AuthenticateUbi_ignores_ticket_failure
  (email password : string) (st : State) (ubi : Ubi) (err : error)
  (w : World) :
  Ubi_Authenticate (NewUbi "86263886-327a-4328-ac69-527f0d20a237")
    email password (world st) = ((ubi, err), w) ->
  AuthenticateUbi email password st
  = AuthenticateUbiTicket (Ubi_GetTicket ubi) (with_world w st).
Proof.
  intros Hubi. unfold AuthenticateUbi. rewrite Hubi. reflexivity.
Qed.
End Refresh.

(** ** The request dispatcher *)
Section Requests.
Context {E : Externals}.

Lemma after_refresh_passed k st0 st1 :
  CheckRefresh st0 = (Ret None, st1) ->
  after_refresh k st0 = k st1.
Proof. intros H. unfold after_refresh, bind. rewrite H. reflexivity. Qed.

Lemma dispatch_rejected method url useCache data st resp :
  http_NewRequest_err method url = None ->
  server (world st) (sent (world st))
    (resource_request method url data (self st)) = Answered resp ->
  fault (Body resp) = None ->
  StatusCode resp <> 200 ->
  dispatch method url useCache data st
  = (Ret (EmptyString, Some ("error from server: " +:+ content (Body resp))),
     with_world (record (resource_request method url data (self st))
                   (world st)) st).
Proof.
  intros Hurl Hsrv Hread Hcode. unfold dispatch.
  rewrite Hurl, Hsrv, Hread.
  destruct (Z.eqb_spec (StatusCode resp) 200); [contradiction|reflexivity].
Qed.

Lemma requestCache_Set_default k x st :
  0 < cache.defaultExpiration (requestCache (self st)) ->
  requestCache_Set k x cache.DefaultExpiration st
  = (Ret tt,
     {| self :=
          set_requestCache
            (cache.with_items (requestCache (self st))
               (<[k := {| cache.Object := x;
                          cache.Expiration :=
                            time.UnixNano
                              (time.Add (clock (world st) (ticks (world st)))
                                 (cache.defaultExpiration
                                    (requestCache (self st)))) |}]>
                  (cache.items (requestCache (self st)))))
            (self st);
        world := tick (world st) |}).
Proof.
  intros Hd. unfold requestCache_Set, bind, get_self, modify_self, time_Now,
    ret. cbn.
  destruct (Z.ltb_spec 0 (cache.defaultExpiration (requestCache (self st))));
    [reflexivity|lia].
Qed.

Lemma dispatch_accepted_cached url data st resp :
  http_NewRequest_err "GET" url = None ->
  server (world st) (sent (world st))
    (resource_request "GET" url data (self st)) = Answered resp ->
  fault (Body resp) = None ->
  StatusCode resp = 200 ->
  0 < cache.defaultExpiration (requestCache (self st)) ->
  dispatch "GET" url true data st
  = (Ret (content (Body resp), None),
     {| self :=
          set_requestCache
            (cache.with_items (requestCache (self st))
               (<[url := {| cache.Object := content (Body resp);
                            cache.Expiration :=
                              time.UnixNano
                                (time.Add (clock (world st) (ticks (world st)))
                                   (cache.defaultExpiration
                                      (requestCache (self st)))) |}]>
                  (cache.items (requestCache (self st)))))
            (self st);
        world := tick (record (resource_request "GET" url data (self st))
                         (world st)) |}).
Proof.
  intros Hurl Hsrv Hread Hcode Hd. unfold dispatch.
  rewrite Hurl, Hsrv, Hread, Hcode. cbn [Z.eqb Pos.eqb].
  unfold bind. rewrite requestCache_Set_default by exact Hd.
  reflexivity.
Qed.

(** C5. A resource call (get or post) whose refresh check passed and whose
    request was answered, the body fully read, with a status other than 200
    fails with the text [error from server: ] followed by the body as
    received; no envelope is decoded. *)
Theorem resource_error_carries_raw_body
  (url data : string) (useCache : bool) (st st1 : State) (resp : Response) :
  StatusCode resp <> 200 ->
  fault (Body resp) = None ->
  ((useCache = true ->
    cache_lookup (requestCache (self st)) url
      (clock (world st) (ticks (world st))) = None) ->
   CheckRefresh (if useCache then after_Get url st else st) = (Ret None, st1) ->
   http_NewRequest_err "GET" url = None ->
   server (world st1) (sent (world st1))
     (resource_request "GET" url EmptyString (self st1)) = Answered resp ->
   Get url useCache st
   = (Ret (EmptyString, Some ("error from server: " +:+ content (Body resp))),
      with_world (record (resource_request "GET" url EmptyString (self st1))
                    (world st1)) st1)) /\
  (CheckRefresh st = (Ret None, st1) ->
   http_NewRequest_err "POST" url = None ->
   server (world st1) (sent (world st1))
     (resource_request "POST" url data (self st1)) = Answered resp ->
   Post url data st
   = (Ret (EmptyString, Some ("error from server: " +:+ content (Body resp))),
      with_world (record (resource_request "POST" url data (self st1))
                    (world st1)) st1)).
Proof.
  intros Hcode Hread. split.
  - intros Hmiss Hrefresh Hurl Hsrv. unfold Get. rewrite request_run.
    destruct useCache.
    + rewrite (Hmiss eq_refl).
      rewrite (after_refresh_passed _ _ _ Hrefresh).
      apply dispatch_rejected; assumption.
    + rewrite (after_refresh_passed _ _ _ Hrefresh).
      apply dispatch_rejected; assumption.
  - intros Hrefresh Hurl Hsrv. unfold Post. rewrite request_run.
    rewrite (after_refresh_passed _ _ _ Hrefresh).
    apply dispatch_rejected; assumption.
Qed.

(** When the refresh check passes, it has performed the refresh request
    exactly if the refresh was due, and nothing else. *)
Lemma CheckRefresh_passed_sent st st1 :
  CheckRefresh st = (Ret None, st1) ->
  sent (world st1)
  = if tokenRefreshTime (self st) <? now32 (world st)
    then refresh_request (self st) :: sent (world st)
    else sent (world st).
Proof.
  rewrite CheckRefresh_run. cbv zeta.
  destruct (tokenRefreshTime (self st) <? now32 (world st)).
  - destruct (http_NewRequest_err "POST" endpoint_refresh) as [err|] eqn:Hurl.
    + rewrite (refreshNow_no_request _ _ Hurl). discriminate.
    + rewrite (refreshNow_run _ Hurl).
      pose proof (exchange_sent (refresh_request (self st))
                    (with_world (tick (world st)) st)) as Hsent.
      destruct (exchange _ _) as [[[e|]|msg] st2]; intros H;
        try discriminate H.
      injection H as <-. exact Hsent.
  - intros H. injection H as <-. reflexivity.
Qed.

(** C3 (as amended). A cached get that finds the target returns the cached
    body and leaves the state the cache lookup alone leaves: the session and
    the list of requests are untouched, whether or not a refresh is due.  A
    cached get that misses, passes the refresh check and is answered with
    status 200 stores the body under the target, to expire at the time of
    insertion plus the cache's default time-to-live (as the int64 of
    nanoseconds that [UnixNano] gives).  The requests of that call are the
    one for the target, preceded by the refresh request exactly when a
    refresh was due; a second cached get before the expiry returns the same
    body and sends nothing. *)
Theorem Get_served_from_cache (url : string) :
  (forall (st : State) (v : string),
     cache_lookup (requestCache (self st)) url
       (clock (world st) (ticks (world st))) = Some v ->
     Get url true st = (Ret (v, None), after_Get url st) /\
     self (snd (Get url true st)) = self st /\
     sent (world (snd (Get url true st))) = sent (world st)) /\
  (forall (st st1 : State) (resp : Response),
     cache_lookup (requestCache (self st)) url
       (clock (world st) (ticks (world st))) = None ->
     CheckRefresh (after_Get url st) = (Ret None, st1) ->
     http_NewRequest_err "GET" url = None ->
     server (world st1) (sent (world st1))
       (resource_request "GET" url EmptyString (self st1)) = Answered resp ->
     fault (Body resp) = None ->
     StatusCode resp = 200 ->
     0 < cache.defaultExpiration (requestCache (self st1)) ->
     let body := content (Body resp) in
     let expires :=
       time.UnixNano
         (time.Add (clock (world st1) (ticks (world st1)))
            (cache.defaultExpiration (requestCache (self st1)))) in
     let st2 := snd (Get url true st) in
     fst (Get url true st) = Ret (body, None) /\
     sent (world st2)
     = resource_request "GET" url EmptyString (self st1) ::
       (if tokenRefreshTime (self st) <? now32 (world (after_Get url st))
        then refresh_request (self st) :: sent (world st)
        else sent (world st)) /\
     cache.items (requestCache (self st2)) !! url
     = Some {| cache.Object := body; cache.Expiration := expires |} /\
     (time.UnixNano (clock (world st2) (ticks (world st2))) <= expires ->
      fst (Get url true st2) = Ret (body, None) /\
      self (snd (Get url true st2)) = self st2 /\
      sent (world (snd (Get url true st2))) = sent (world st2))).
Proof.
  assert (Hhit : forall (st : State) (v : string),
     cache_lookup (requestCache (self st)) url
       (clock (world st) (ticks (world st))) = Some v ->
     Get url true st = (Ret (v, None), after_Get url st) /\
     self (snd (Get url true st)) = self st /\
     sent (world (snd (Get url true st))) = sent (world st)).
  { intros st v Hfound. unfold Get. rewrite request_run, Hfound. cbn [fst snd].
    split; [reflexivity|]. split; [apply after_Get_self|apply after_Get_sent]. }
  split; [exact Hhit|].
  intros st st1 resp Hmiss Hrefresh Hurl Hsrv Hread Hcode Hd body expires.
  assert (Hrun : Get url true st
    = (Ret (body, None),
       {| self :=
            set_requestCache
              (cache.with_items (requestCache (self st1))
                 (<[url := {| cache.Object := body;
                              cache.Expiration := expires |}]>
                    (cache.items (requestCache (self st1)))))
              (self st1);
          world := tick (record (resource_request "GET" url EmptyString
                                   (self st1)) (world st1)) |})).
  { unfold Get. rewrite request_run, Hmiss.
    rewrite (after_refresh_passed _ _ _ Hrefresh).
    apply dispatch_accepted_cached; assumption. }
  pose proof (CheckRefresh_passed_sent _ _ Hrefresh) as Hlog.
  rewrite after_Get_self, after_Get_sent in Hlog.
  rewrite Hrun. cbv zeta. cbn [fst snd].
  set (st2 := {| self := _; world := _ |}).
  split; [reflexivity|].
  split; [unfold st2; cbn [world sent tick record]; now rewrite Hlog|].
  assert (Hitem : cache.items (requestCache (self st2)) !! url
                  = Some {| cache.Object := body; cache.Expiration := expires |}).
  { unfold st2. cbn. apply lookup_insert_eq. }
  split; [exact Hitem|].
  intros Hsoon.
  assert (Hfound : cache_lookup (requestCache (self st2)) url
                     (clock (world st2) (ticks (world st2))) = Some body);
    [|destruct (Hhit st2 body Hfound) as [Hget Hrest]; rewrite Hget at 1;
      split; [reflexivity|exact Hrest]].
  unfold cache_lookup. rewrite Hitem. cbn [cache.Expiration cache.Object].
  destruct (Z.ltb_spec expires
              (time.UnixNano (clock (world st2) (ticks (world st2)))));
    [lia|]. rewrite andb_false_r. reflexivity.
Qed.

Lemma exchange_keeps_frame (req : State -> Request) :
  keeps_frame (fun st => exchange (req st) st).
Proof.
  intros st. unfold exchange.
  destruct (server _ _ _) as [err|resp]; [reflexivity|].
  destruct (makeslice_panic (ContentLength resp)); [reflexivity|].
  destruct (StatusCode resp =? 200); reflexivity.
Qed.

Lemma refreshNow_keeps_frame : keeps_frame refreshNow.
Proof.
  intros st.
  destruct (http_NewRequest_err "POST" endpoint_refresh) as [err|] eqn:Hurl.
  - rewrite (refreshNow_no_request _ _ Hurl). reflexivity.
  - rewrite (refreshNow_run _ Hurl).
    apply (exchange_keeps_frame (fun st => refresh_request (self st))).
Qed.

Lemma CheckRefresh_keeps_frame : keeps_frame CheckRefresh.
Proof.
  intros st. rewrite CheckRefresh_run. cbv zeta.
  destruct (tokenRefreshTime (self st) <? now32 (world st)); [|reflexivity].
  pose proof (refreshNow_keeps_frame (with_world (tick (world st)) st)) as H.
  destruct (refreshNow _) as [[[e|]|msg] st2]; exact H.
Qed.

Lemma dispatch_keeps_frame method url useCache data :
  keeps_frame (dispatch method url useCache data).
Proof.
  intros st. unfold dispatch.
  destruct (http_NewRequest_err method url); [reflexivity|].
  destruct (server _ _ _) as [err|resp]; [reflexivity|].
  destruct (fault (Body resp)); [reflexivity|].
  destruct (StatusCode resp =? 200); [|reflexivity].
  destruct useCache; [|reflexivity].
  unfold bind, requestCache_Set, get_self, modify_self, time_Now, ret. cbn.
  destruct (0 <? cache.defaultExpiration (requestCache (self st)));
    reflexivity.
Qed.

Lemma after_refresh_keeps_frame k :
  keeps_frame k -> keeps_frame (after_refresh k).
Proof.
  intros Hk st. unfold after_refresh, bind.
  pose proof (CheckRefresh_keeps_frame st) as H.
  destruct (CheckRefresh st) as [[[e|]|msg] st1]; try exact H.
  cbn [snd] in H. rewrite <- H. apply Hk.
Qed.

(** Every session made by [NewNadeoWithAudience] keeps its audience and the
    one-minute default time-to-live of its cache through [Get] and [Post]. *)
Lemma request_keeps_frame method url useCache data :
  keeps_frame (request method url useCache data).
Proof.
  intros st. rewrite request_run. destruct useCache.
  - destruct (cache_lookup _ _ _).
    + cbn [snd]. now rewrite after_Get_self.
    + transitivity (session_frame (self (after_Get url st)));
        [|now rewrite after_Get_self].
      apply after_refresh_keeps_frame, dispatch_keeps_frame.
  - apply after_refresh_keeps_frame, dispatch_keeps_frame.
Qed.

Lemma exchange_ignores_cache (req : State -> Request) :
  (forall c st, req (swap_cache c st) = req st) ->
  ignores_cache (fun st => exchange (req st) st).
Proof.
  intros Hreq c st. rewrite Hreq. unfold exchange. cbn.
  destruct (server _ _ _) as [err|resp]; [reflexivity|].
  destruct (makeslice_panic (ContentLength resp)); [reflexivity|].
  destruct (StatusCode resp =? 200); reflexivity.
Qed.

Lemma refreshNow_ignores_cache : ignores_cache refreshNow.
Proof.
  intros c st.
  destruct (http_NewRequest_err "POST" endpoint_refresh) as [err|] eqn:Hurl.
  - rewrite !(refreshNow_no_request _ _ Hurl). reflexivity.
  - rewrite !(refreshNow_run _ Hurl).
    apply (exchange_ignores_cache (fun st => refresh_request (self st))).
    reflexivity.
Qed.

Lemma CheckRefresh_ignores_cache : ignores_cache CheckRefresh.
Proof.
  intros c st. rewrite !CheckRefresh_run. cbv zeta.
  change (tokenRefreshTime (self (swap_cache c st)))
    with (tokenRefreshTime (self st)).
  change (now32 (world (swap_cache c st))) with (now32 (world st)).
  destruct (tokenRefreshTime (self st) <? now32 (world st)); [|reflexivity].
  change (with_world (tick (world (swap_cache c st))) (swap_cache c st))
    with (swap_cache c (with_world (tick (world st)) st)).
  rewrite refreshNow_ignores_cache.
  destruct (refreshNow _) as [[[e|]|msg] st2]; reflexivity.
Qed.

Lemma dispatch_ignores_cache method url data :
  ignores_cache (dispatch method url false data).
Proof.
  intros c st. unfold dispatch. cbn.
  destruct (http_NewRequest_err method url); [reflexivity|].
  change (resource_request method url data (set_requestCache c (self st)))
    with (resource_request method url data (self st)).
  destruct (server _ _ _) as [err|resp]; [reflexivity|].
  destruct (fault (Body resp)); [reflexivity|].
  destruct (StatusCode resp =? 200); reflexivity.
Qed.

Lemma after_refresh_ignores_cache k :
  ignores_cache k -> ignores_cache (after_refresh k).
Proof.
  intros Hk c st. unfold after_refresh, bind.
  rewrite CheckRefresh_ignores_cache.
  destruct (CheckRefresh st) as [[[e|]|msg] st1]; cbn [fst snd];
    try reflexivity.
  apply Hk.
Qed.

Lemma swap_cache_same st : swap_cache (requestCache (self st)) st = st.
Proof. destruct st as [[] w]. reflexivity. Qed.

Lemma ignores_cache_keeps {A} (op : M A) st :
  ignores_cache op ->
  requestCache (self (snd (op st))) = requestCache (self st).
Proof.
  intros Hop. pose proof (Hop (requestCache (self st)) st) as H.
  rewrite swap_cache_same in H.
  rewrite H at 1. reflexivity.
Qed.

(** C8. [Post] runs the same refresh check and the same HTTP call as a get
    without cache, the request differing in its method and body only; it
    neither reads the response cache (its result does not depend on the
    cache) nor writes it (the cache is the same afterwards). *)
Theorem Post_never_touches_cache (url data : string) :
  ignores_cache (Post url data) /\
  (forall st : State,
     requestCache (self (snd (Post url data st))) = requestCache (self st)) /\
  (forall st : State,
     Post url data st = after_refresh (dispatch "POST" url false data) st /\
     Get url false st
     = after_refresh (dispatch "GET" url false EmptyString) st) /\
  (forall n : nadeo,
     let post := resource_request "POST" url data n in
     let get := resource_request "GET" url EmptyString n in
     URL post = URL get /\ Header post = Header get /\
     Method post = "POST" /\ ReqBody post = Some data /\
     Method get = "GET" /\ ReqBody get = None).
Proof.
  assert (Hrun : forall st,
    Post url data st = after_refresh (dispatch "POST" url false data) st).
  { intros st. unfold Post. rewrite request_run. reflexivity. }
  assert (Hign : ignores_cache (Post url data)).
  { intros c st. rewrite !Hrun.
    apply after_refresh_ignores_cache, dispatch_ignores_cache. }
  split; [exact Hign|]. split.
  - intros st. apply ignores_cache_keeps, Hign.
  - split.
    + intros st. split; [apply Hrun|]. unfold Get. rewrite request_run.
      reflexivity.
    + intros n. cbn. repeat split; reflexivity.
Qed.
End Requests.

(** ** The statements at work on the concrete environment *)

Lemma CheckRefresh_refreshes_past_deadline_witness :
  (let st := Demo.state 500 in
   let st' := snd (CheckRefresh (E := Demo.externals) st) in
   sent (world st') = [refresh_request (self st)] /\
   fst (CheckRefresh (E := Demo.externals) st) = Ret None /\
   accessToken (self st') = "access-2" /\
   tokenRefreshTime (self st') = 2000 /\
   CheckRefresh (E := Demo.externals) st'
   = (Ret None, with_world (tick (world st')) st')) /\
  (let st := Demo.state 1000 in
   CheckRefresh (E := Demo.externals) st
   = (Ret None, with_world (tick (world st)) st)).
Proof.
  split.
  - destruct (CheckRefresh_refreshes_past_deadline (E := Demo.externals)
                (Demo.state 500) eq_refl) as [Hdue [_ Hnext]].
    cbv zeta. split; [exact (Hdue eq_refl)|].
    destruct (Hnext {| StatusCode := 200; ContentLength := 8;
                       Body := {| content := "TOKENS-2"; fault := None |} |}
                eq_refl eq_refl eq_refl eq_refl
                ltac:(vm_compute; discriminate))
      as [Hok [Hself Hnoop]].
    split; [exact Hok|].
    split; [rewrite Hself; reflexivity|].
    split; [rewrite Hself; reflexivity|].
    exact Hnoop.
  - destruct (CheckRefresh_refreshes_past_deadline (E := Demo.externals)
                (Demo.state 1000) eq_refl) as [_ [Hnot _]].
    apply Hnot. vm_compute. discriminate.
Defined.

(** C1, as the spec words it, fails twice: at the very second refreshAfter
    no exchange is performed although the time is not before refreshAfter;
    and after a refresh whose new token is already due, the check that
    follows refreshes again. *)
Lemma CheckRefresh_at_deadline_sends_nothing :
  (let st := Demo.state 1000 in
   now32 (world st) >= tokenRefreshTime (self st) /\
   CheckRefresh (E := Demo.externals) st
   = (Ret None, with_world (tick (world st)) st) /\
   sent (world (snd (CheckRefresh (E := Demo.externals) st)))
   = sent (world st)) /\
  (let st := {| self := Demo.session 500;
                world := Demo.world_with Demo.serve_stale |} in
   let st1 := snd (CheckRefresh (E := Demo.externals) st) in
   fst (CheckRefresh (E := Demo.externals) st) = Ret None /\
   length (sent (world st1)) = 1%nat /\
   length (sent (world (snd (CheckRefresh (E := Demo.externals) st1))))
   = 2%nat).
Proof.
  split.
  - cbv zeta. split; [vm_compute; discriminate|].
    split; reflexivity.
  - cbv zeta. split; [reflexivity|]. split; reflexivity.
Qed.

Lemma rejection_of_unknown_length_panics_witness :
  fst (Authenticate (E := Demo.externals) "ann" "hunter2" Demo.fresh_state)
  = Panic "runtime error: makeslice: len out of range".
Proof.
  destruct (rejection_of_unknown_length_panics (E := Demo.externals)
              "ticket" "ann" "hunter2" Demo.fresh_state
              {| StatusCode := 401; ContentLength := -1;
                 Body := {| content := "BAD-CREDENTIALS"; fault := None |} |}
              ltac:(discriminate) eq_refl) as [_ [Hbasic _]].
  exact (Hbasic eq_refl eq_refl).
Defined.

Lemma undecodable_tokens_stored_silently_witness :
  (let st := {| self := Demo.session 500;
                world := Demo.world_with Demo.serve_garbage |} in
   fst (refreshNow (E := Demo.externals) st) = Ret None /\
   accessToken (self (snd (refreshNow (E := Demo.externals) st)))
   = EmptyString /\
   refreshToken (self (snd (refreshNow (E := Demo.externals) st)))
   = EmptyString /\
   fst (Authenticate (E := Demo.externals) "ann" "hunter2" st) = Ret None /\
   fst (AuthenticateUbiTicket (E := Demo.externals) "ticket" st) = Ret None) /\
  (let st := {| self := Demo.session 500;
                world := Demo.world_with Demo.serve_half_typed |} in
   fst (refreshNow (E := Demo.externals) st) = Ret None /\
   accessToken (self (snd (refreshNow (E := Demo.externals) st)))
   = "access-2" /\
   refreshToken (self (snd (refreshNow (E := Demo.externals) st)))
   = EmptyString /\
   tokenRefreshTime (self (snd (refreshNow (E := Demo.externals) st)))
   = 2000).
Proof.
  split; cbv zeta.
  - destruct (undecodable_tokens_stored_silently (E := Demo.externals)
                "ticket" "ann" "hunter2"
                {| self := Demo.session 500;
                   world := Demo.world_with Demo.serve_garbage |}
                {| StatusCode := 200; ContentLength := 6;
                   Body := {| content := "<html>"; fault := None |} |}
                authResponse_zero (Some "invalid character")
                eq_refl eq_refl eq_refl)
      as [Hzero [Hticket [Hbasic Hrefresh]]].
    destruct (Hrefresh eq_refl eq_refl) as [Hok Hself].
    destruct (Hzero eq_refl) as [Haccess [Hrenew _]].
    split; [exact Hok|]. rewrite Hself.
    split; [exact Haccess|]. split; [exact Hrenew|].
    split; [exact (proj1 (Hbasic eq_refl eq_refl))|].
    exact (proj1 (Hticket eq_refl eq_refl)).
  - destruct (undecodable_tokens_stored_silently (E := Demo.externals)
                "ticket" "ann" "hunter2"
                {| self := Demo.session 500;
                   world := Demo.world_with Demo.serve_half_typed |}
                {| StatusCode := 200;
                   ContentLength :=
                     Z.of_nat (String.length Demo.half_typed_body);
                   Body := {| content := Demo.half_typed_body;
                              fault := None |} |}
                {| AccessToken := "access-2"; RefreshToken := EmptyString |}
                (Some "json: cannot unmarshal number into Go struct field authResponse.refreshToken of type string")
                eq_refl eq_refl eq_refl)
      as [_ [_ [_ Hrefresh]]].
    destruct (Hrefresh eq_refl eq_refl) as [Hok Hself].
    split; [exact Hok|]. rewrite Hself. repeat split.
Defined.

(** C10, as the spec words it, fails: a 200 body that [json.Unmarshal]
    rejects for the type of its refreshToken, after filling in the
    accessToken, is stored with that access token, not with an empty one,
    and nil is returned. *)
Lemma undecodable_body_stores_nonempty_token :
  let st := {| self := Demo.session 500;
               world := Demo.world_with Demo.serve_half_typed |} in
  snd (Demo.unmarshal_auth Demo.half_typed_body authResponse_zero) <> None /\
  fst (refreshNow (E := Demo.externals) st) = Ret None /\
  accessToken (self (snd (refreshNow (E := Demo.externals) st)))
  = "access-2" /\
  accessToken (self (snd (refreshNow (E := Demo.externals) st)))
  <> EmptyString.
Proof.
  cbv zeta. split; [discriminate|]. split; [reflexivity|].
  split; [reflexivity|discriminate].
Qed.

(** C6, as the spec words it, fails: the Authorization header the ticket
    flow sends is not [ticket_v1 t=<ticket>]. *)
Lemma ticket_header_is_not_ticket_v1 :
  let st' := snd (AuthenticateUbiTicket (E := Demo.externals)
                    "ticket-of-ann" Demo.fresh_state) in
  exists req : Request,
    sent (world st') = [req] /\
    Header req = [("Content-Type", "application/json");
                  ("Authorization", "ubi_v1 t=ticket-of-ann")] /\
    ~ In ("Authorization", "ticket_v1 t=ticket-of-ann") (Header req).
Proof.
  cbv zeta. eexists. split; [reflexivity|]. split; [reflexivity|].
  cbn. intros [H|[H|[]]]; discriminate H.
Qed.

Lemma ticket_request_sent_witness :
  sent (world (snd (AuthenticateUbiTicket (E := Demo.externals)
                      "ticket-of-ann" Demo.fresh_state)))
  = [ubiservices_request NewNadeo "ticket-of-ann"].
Proof.
  exact (ticket_request_sent (E := Demo.externals) "ticket-of-ann"
           Demo.fresh_state eq_refl).
Defined.

Lemma CheckRefresh_unauthenticated_witness :
  CheckRefresh (E := Demo.externals) Demo.fresh_state
  = (Ret (Some "unable to refresh token: error 401 from server: Invalid credentials."),
     with_world
       (record (refresh_request NewNadeo)
          (tick (world Demo.fresh_state)))
       Demo.fresh_state).
Proof.
  destruct (CheckRefresh_unauthenticated (E := Demo.externals)
              Demo.fresh_state eq_refl eq_refl eq_refl eq_refl
              ltac:(vm_compute; reflexivity) eq_refl) as [_ Hrejected].
  exact (Hrejected
           {| StatusCode := 401; ContentLength := 15;
              Body := {| content := "BAD-CREDENTIALS"; fault := None |} |}
           eq_refl ltac:(discriminate) eq_refl).
Defined.

(** C7, as the spec words it, fails: when the clock's seconds are a multiple
    of 2^32 (second 2^32 here), [CheckRefresh] on a session that never
    authenticated attempts no exchange and returns success. *)
Lemma CheckRefresh_unauthenticated_sends_nothing_at_wrap :
  accessToken (self Demo.fresh_state_at_wrap) = EmptyString /\
  refreshToken (self Demo.fresh_state_at_wrap) = EmptyString /\
  tokenRefreshTime (self Demo.fresh_state_at_wrap) = 0 /\
  tokenExpirationTime (self Demo.fresh_state_at_wrap) = 0 /\
  time.Unix (clock (world Demo.fresh_state_at_wrap) 0) = 2 ^ 32 /\
  fst (CheckRefresh (E := Demo.externals) Demo.fresh_state_at_wrap)
  = Ret None /\
  sent (world (snd (CheckRefresh (E := Demo.externals)
                      Demo.fresh_state_at_wrap))) = [].
Proof. repeat split. Qed.

Lemma AuthenticateUbi_ignores_ticket_failure_witness :
  AuthenticateUbi (E := Demo.externals) "ann" "wrong" Demo.fresh_state
  = AuthenticateUbiTicket (E := Demo.externals) EmptyString Demo.fresh_state /\
  fst (AuthenticateUbi (E := Demo.externals) "ann" "wrong" Demo.fresh_state)
  = Ret (Some "error 401 from server: Invalid credentials.").
Proof.
  pose proof (AuthenticateUbi_ignores_ticket_failure (E := Demo.externals)
                "ann" "wrong" Demo.fresh_state EmptyString
                (Some "login refused") (world Demo.fresh_state) eq_refl)
    as Hsame.
  split; [exact Hsame|]. rewrite Hsame. reflexivity.
Defined.

Lemma resource_error_carries_raw_body_witness :
  fst (Get (E := Demo.externals) "https://live/none" true (Demo.state 5000))
  = Ret (EmptyString, Some "error from server: no such map") /\
  fst (Post (E := Demo.externals) "https://live/none" "{}" (Demo.state 5000))
  = Ret (EmptyString, Some "error from server: no such map").
Proof.
  destruct (resource_error_carries_raw_body (E := Demo.externals)
              "https://live/none" "{}" true (Demo.state 5000)
              (with_world (tick (world (Demo.state 5000))) (Demo.state 5000))
              {| StatusCode := 404; ContentLength := 11;
                 Body := {| content := "no such map"; fault := None |} |}
              ltac:(discriminate) eq_refl) as [Hget Hpost].
  split.
  - rewrite (Hget (fun _ => eq_refl) eq_refl eq_refl eq_refl). reflexivity.
  - rewrite (Hpost eq_refl eq_refl eq_refl). reflexivity.
Defined.

Lemma Get_served_from_cache_witness :
  let st := Demo.state 5000 in
  let st2 := snd (Get (E := Demo.externals) "https://live/maps" true st) in
  fst (Get (E := Demo.externals) "https://live/maps" true st)
  = Ret ("[1,2,3]", None) /\
  length (sent (world st2)) = 1%nat /\
  fst (Get (E := Demo.externals) "https://live/maps" true st2)
  = Ret ("[1,2,3]", None) /\
  sent (world (snd (Get (E := Demo.externals) "https://live/maps" true st2)))
  = sent (world st2).
Proof.
  cbv zeta.
  destruct (Get_served_from_cache (E := Demo.externals) "https://live/maps")
    as [_ Hmiss].
  destruct (Hmiss (Demo.state 5000)
              (with_world (tick (world (Demo.state 5000))) (Demo.state 5000))
              {| StatusCode := 200; ContentLength := 7;
                 Body := {| content := "[1,2,3]"; fault := None |} |}
              eq_refl eq_refl eq_refl eq_refl eq_refl eq_refl eq_refl)
    as [Hfirst [Hsent [_ Hsecond]]].
  split; [exact Hfirst|]. split; [rewrite Hsent; reflexivity|].
  destruct (Hsecond ltac:(vm_compute; discriminate)) as [Hbody [_ Hquiet]].
  split; [exact Hbody|exact Hquiet].
Defined.

(** C3, as the spec words it, fails: when a refresh is due at the first of
    two cached gets in quick succession, the two calls issue two network
    requests, the refresh exchange and the request for the target, although
    the second call returns the identical body from the cache. *)
Lemma two_cached_gets_send_two_requests :
  let st := Demo.state 500 in
  let st2 := snd (Get (E := Demo.externals) "https://live/maps" true st) in
  let st3 := snd (Get (E := Demo.externals) "https://live/maps" true st2) in
  fst (Get (E := Demo.externals) "https://live/maps" true st)
  = Ret ("[1,2,3]", None) /\
  fst (Get (E := Demo.externals) "https://live/maps" true st2)
  = Ret ("[1,2,3]", None) /\
  sent (world st) = [] /\
  length (sent (world st3)) = 2%nat /\
  sent (world st3)
  = [resource_request "GET" "https://live/maps" EmptyString (self st2);
     refresh_request (self st)].
Proof. cbv zeta. repeat split. Qed.


Lemma Post_never_touches_cache_witness :
  fst (Post (E := Demo.externals) "https://live/maps" "{}" (Demo.state 5000))
  = Ret ("[1,2,3]", None) /\
  requestCache
    (self (snd (Post (E := Demo.externals) "https://live/maps" "{}"
                  (Demo.state 5000))))
  = requestCache (Demo.session 5000).
Proof.
  destruct (Post_never_touches_cache (E := Demo.externals)
              "https://live/maps" "{}") as [_ [Hsame _]].
  split; [reflexivity|exact (Hsame (Demo.state 5000))].
Defined.

(** * Further properties of the calls *)

(** ** Failures on the way *)
Section Failures.
Context {E : Externals}.

Lemma exchange_failed req st err :
  server (world st) (sent (world st)) req = Failed err ->
  exchange req st
  = (Ret (Some ("unable to perform request: " +:+ err)),
     with_world (record req (world st)) st).
Proof. intros Hsrv. unfold exchange. rewrite Hsrv. reflexivity. Qed.

(** An outcome of [exchange] other than [nil] leaves the session as it
    was. *)
Lemma exchange_not_nil_keeps_self req st :
  fst (exchange req st) <> Ret None ->
  self (snd (exchange req st)) = self st.
Proof.
  unfold exchange.
  destruct (server _ _ _) as [err|resp]; [reflexivity|].
  destruct (makeslice_panic (ContentLength resp)); [reflexivity|].
  destruct (StatusCode resp =? 200); [|reflexivity].
  cbn. congruence.
Qed.

(** An error of [CheckRefresh] is an error of the refresh exchange behind
    the refresh prefix, and comes with the session unchanged. *)
Lemma CheckRefresh_error st e st1 :
  CheckRefresh st = (Ret (Some e), st1) ->
  self st1 = self st /\
  exists e', e = "unable to refresh token: " +:+ e'.
Proof.
  rewrite CheckRefresh_run. cbv zeta.
  destruct (tokenRefreshTime (self st) <? now32 (world st)); [|discriminate].
  destruct (http_NewRequest_err "POST" endpoint_refresh) as [err|] eqn:Hurl.
  - rewrite (refreshNow_no_request _ _ Hurl). intros H.
    injection H as He Hst. subst. split; [reflexivity|eauto].
  - rewrite (refreshNow_run _ Hurl).
    pose proof (exchange_not_nil_keeps_self (refresh_request (self st))
                  (with_world (tick (world st)) st)) as Hkeep.
    destruct (exchange _ _) as [[[e0|]|msg] st2]; intros H;
      try discriminate H.
    injection H as He Hst. subst. cbn in Hkeep.
    split; [apply Hkeep; discriminate|eauto].
Qed.

(** X1. When the HTTP call of an authentication or refresh exchange fails
    in transport, the call returns [unable to perform request: ] followed
    by the transport error; the request counts as performed and the session
    is unchanged. *)
Theorem exchange_transport_failure
  (ticket username password : string) (st : State) (err : string) :
  (http_NewRequest_err "POST" endpoint_ubiservices = None ->
   server (world st) (sent (world st))
     (ubiservices_request (self st) ticket) = Failed err ->
   AuthenticateUbiTicket ticket st
   = (Ret (Some ("unable to perform request: " +:+ err)),
      with_world (record (ubiservices_request (self st) ticket) (world st))
        st)) /\
  (http_NewRequest_err "POST" endpoint_basic = None ->
   server (world st) (sent (world st))
     (basic_request (self st) username password) = Failed err ->
   Authenticate username password st
   = (Ret (Some ("unable to perform request: " +:+ err)),
      with_world
        (record (basic_request (self st) username password) (world st))
        st)) /\
  (http_NewRequest_err "POST" endpoint_refresh = None ->
   server (world st) (sent (world st)) (refresh_request (self st))
     = Failed err ->
   refreshNow st
   = (Ret (Some ("unable to perform request: " +:+ err)),
      with_world (record (refresh_request (self st)) (world st)) st)).
Proof.
  split; [|split]; intros Hurl Hsrv.
  - rewrite (AuthenticateUbiTicket_run _ _ Hurl).
    apply exchange_failed, Hsrv.
  - rewrite (Authenticate_run _ _ _ Hurl). apply exchange_failed, Hsrv.
  - rewrite (refreshNow_run _ Hurl). apply exchange_failed, Hsrv.
Qed.

(** X2. Once the cache missed (or was not asked) and the refresh check
    passed, a resource call that cannot build its request, whose HTTP call
    fails in transport, or whose body cannot be read to the end returns the
    matching error text and an empty body, whatever the status; the session,
    cache included, stays as the refresh check left it. *)
Theorem request_failures
  (method url : string) (useCache : bool) (data : string) (st st1 : State) :
  (useCache = true ->
   cache_lookup (requestCache (self st)) url
     (clock (world st) (ticks (world st))) = None) ->
  CheckRefresh (if useCache then after_Get url st else st) = (Ret None, st1) ->
  let req := resource_request method url data (self st1) in
  (forall err,
     http_NewRequest_err method url = Some err ->
     request method url useCache data st
     = (Ret (EmptyString, Some ("unable to make request: " +:+ err)), st1)) /\
  (forall err,
     http_NewRequest_err method url = None ->
     server (world st1) (sent (world st1)) req = Failed err ->
     request method url useCache data st
     = (Ret (EmptyString, Some ("unable to perform request: " +:+ err)),
        with_world (record req (world st1)) st1)) /\
  (forall resp err,
     http_NewRequest_err method url = None ->
     server (world st1) (sent (world st1)) req = Answered resp ->
     fault (Body resp) = Some err ->
     request method url useCache data st
     = (Ret (EmptyString, Some ("unable to read from stream: " +:+ err)),
        with_world (record req (world st1)) st1)).
Proof.
  intros Hmiss Hrefresh req.
  assert (Hrun : request method url useCache data st
                 = dispatch method url useCache data st1).
  { rewrite request_run. destruct useCache.
    - rewrite (Hmiss eq_refl).
      apply (after_refresh_passed _ _ _ Hrefresh).
    - apply (after_refresh_passed _ _ _ Hrefresh). }
  rewrite Hrun. unfold dispatch. fold req.
  split; [|split].
  - intros err Hurl. rewrite Hurl. reflexivity.
  - intros err Hurl Hsrv. rewrite Hurl, Hsrv. reflexivity.
  - intros resp err Hurl Hsrv Hread. rewrite Hurl, Hsrv, Hread. reflexivity.
Qed.

(** X3. When the refresh check of a resource call fails, the call returns
    that error (an error of the refresh exchange behind the refresh prefix)
    with an empty body and stops: no request for the target is sent and the
    session is unchanged. *)
Theorem request_stops_on_refresh_failure
  (method url : string) (useCache : bool) (data : string) (st st1 : State)
  (e : string) :
  (useCache = true ->
   cache_lookup (requestCache (self st)) url
     (clock (world st) (ticks (world st))) = None) ->
  CheckRefresh (if useCache then after_Get url st else st)
  = (Ret (Some e), st1) ->
  request method url useCache data st = (Ret (EmptyString, Some e), st1) /\
  self st1 = self st /\
  (exists e', e = "unable to refresh token: " +:+ e').
Proof.
  intros Hmiss Hrefresh.
  destruct (CheckRefresh_error _ _ _ Hrefresh) as [Hself Hprefix].
  split; [|split; [|exact Hprefix]].
  - rewrite request_run. unfold after_refresh, bind. destruct useCache.
    + rewrite (Hmiss eq_refl), Hrefresh. reflexivity.
    + rewrite Hrefresh. reflexivity.
  - rewrite Hself. destruct useCache; [apply after_Get_self|reflexivity].
Qed.
End Failures.

(** ** The response cache under the calls *)
Section CacheUse.
Context {E : Externals}.

Lemma CheckRefresh_keeps_cache st :
  requestCache (self (snd (CheckRefresh st))) = requestCache (self st).
Proof. apply ignores_cache_keeps, CheckRefresh_ignores_cache. Qed.

Lemma request_uncached_ignores_cache method url data :
  ignores_cache (request method url false data).
Proof.
  intros c st. rewrite !request_run.
  apply after_refresh_ignores_cache, dispatch_ignores_cache.
Qed.

(** [dispatch] changes nothing of the session but the cache, and the cache
    only when it returns a body. *)
Lemma dispatch_keeps_tokens method url useCache data st :
  accessToken (self (snd (dispatch method url useCache data st)))
  = accessToken (self st).
Proof.
  unfold dispatch.
  destruct (http_NewRequest_err method url); [reflexivity|].
  destruct (server _ _ _) as [err|resp]; [reflexivity|].
  destruct (fault (Body resp)); [reflexivity|].
  destruct (StatusCode resp =? 200); [|reflexivity].
  destruct useCache; [|reflexivity].
  unfold bind, requestCache_Set, get_self, modify_self, time_Now, ret. cbn.
  destruct (0 <? cache.defaultExpiration (requestCache (self st)));
    reflexivity.
Qed.

Lemma dispatch_failure_keeps_self method url useCache data st :
  (forall body, fst (dispatch method url useCache data st)
                <> Ret (body, None)) ->
  self (snd (dispatch method url useCache data st)) = self st.
Proof.
  unfold dispatch.
  destruct (http_NewRequest_err method url); [reflexivity|].
  destruct (server _ _ _) as [err|resp]; [reflexivity|].
  destruct (fault (Body resp)); [reflexivity|].
  destruct (StatusCode resp =? 200); [|reflexivity].
  intros Hfail. exfalso. apply (Hfail (content (Body resp))).
  destruct useCache; [|reflexivity].
  unfold bind, requestCache_Set, get_self, modify_self, time_Now, ret. cbn.
  destruct (0 <? cache.defaultExpiration (requestCache (self st)));
    reflexivity.
Qed.

Lemma dispatch_other_key method url useCache data st (url' : string) :
  url' <> url ->
  cache.items (requestCache (self (snd (dispatch method url useCache data st))))
    !! url'
  = cache.items (requestCache (self st)) !! url'.
Proof.
  intros Hne. unfold dispatch.
  destruct (http_NewRequest_err method url); [reflexivity|].
  destruct (server _ _ _) as [err|resp]; [reflexivity|].
  destruct (fault (Body resp)); [reflexivity|].
  destruct (StatusCode resp =? 200); [|reflexivity].
  destruct useCache; [|reflexivity].
  unfold bind, requestCache_Set, get_self, modify_self, time_Now, ret. cbn.
  destruct (0 <? cache.defaultExpiration (requestCache (self st))); cbn;
    apply lookup_insert_ne; congruence.
Qed.

Lemma dispatch_sent method url useCache data st :
  http_NewRequest_err method url = None ->
  sent (world (snd (dispatch method url useCache data st)))
  = resource_request method url data (self st) :: sent (world st).
Proof.
  intros Hurl. unfold dispatch. rewrite Hurl.
  destruct (server _ _ _) as [err|resp]; [reflexivity|].
  destruct (fault (Body resp)); [reflexivity|].
  destruct (StatusCode resp =? 200); [|reflexivity].
  destruct useCache; [|reflexivity].
  unfold bind, requestCache_Set, get_self, modify_self, time_Now, ret. cbn.
  destruct (0 <? cache.defaultExpiration (requestCache (self st)));
    reflexivity.
Qed.

Lemma refresh_then_target method url useCache data st resp :
  tokenRefreshTime (self st) < now32 (world st) ->
  http_NewRequest_err "POST" endpoint_refresh = None ->
  server (world st) (sent (world st)) (refresh_request (self st))
    = Answered resp ->
  StatusCode resp = 200 ->
  makeslice_panic (ContentLength resp) = None ->
  http_NewRequest_err method url = None ->
  sent (world (snd (after_refresh (dispatch method url useCache data) st)))
  = resource_request method url data
      (store_tokens (decode_tokens resp) (self st))
    :: refresh_request (self st) :: sent (world st).
Proof.
  intros Hdue Hurl Hsrv Hcode Hlen Hurl'.
  assert (Hcheck : CheckRefresh st
    = (Ret None,
       with_self (store_tokens (decode_tokens resp) (self st))
         (with_world (record (refresh_request (self st)) (tick (world st)))
            st))).
  { rewrite (CheckRefresh_due _ Hdue Hurl).
    rewrite (exchange_accepted (refresh_request (self st))
               (with_world (tick (world st)) st) resp Hsrv Hlen Hcode).
    reflexivity. }
  rewrite (after_refresh_passed _ _ _ Hcheck).
  rewrite (dispatch_sent _ _ _ _ _ Hurl'). reflexivity.
Qed.

(** X4. When the cache does not serve the call, the refresh is due and is
    answered with status 200, the read buffer allocated, the resource
    request that follows (get or post, with or without cache) carries the
    access token the refresh just returned, not the one the session held
    when the call began; the two requests are the only ones sent. *)
Theorem request_uses_refreshed_token
  (method url data : string) (useCache : bool) (st : State)
  (resp : Response) :
  (useCache = true ->
   cache_lookup (requestCache (self st)) url
     (clock (world st) (ticks (world st))) = None) ->
  tokenRefreshTime (self st)
  < now32 (world (if useCache then after_Get url st else st)) ->
  http_NewRequest_err "POST" endpoint_refresh = None ->
  server (world st) (sent (world st)) (refresh_request (self st))
    = Answered resp ->
  StatusCode resp = 200 ->
  makeslice_panic (ContentLength resp) = None ->
  http_NewRequest_err method url = None ->
  sent (world (snd (request method url useCache data st)))
  = {| Method := method; URL := url;
       Header := [("Authorization",
                   "nadeo_v1 t=" +:+ AccessToken (decode_tokens resp));
                  ("Accept", "application/json");
                  ("Content-Type", "application/json")];
       ReqBody := if String.eqb method "POST" then Some data else None |}
    :: refresh_request (self st) :: sent (world st).
Proof.
  intros Hmiss Hdue Hurl Hsrv Hcode Hlen Hurl'.
  rewrite request_run. destruct useCache.
  - rewrite (Hmiss eq_refl). unfold after_Get in *.
    destruct (Get_reads_clock (requestCache (self st)) url).
    + apply (refresh_then_target method url true data
               (with_world (tick (world st)) st) resp
               Hdue Hurl Hsrv Hcode Hlen Hurl').
    + apply (refresh_then_target method url true data st resp
               Hdue Hurl Hsrv Hcode Hlen Hurl').
  - apply (refresh_then_target method url false data st resp
             Hdue Hurl Hsrv Hcode Hlen Hurl').
Qed.

(** X5. A cached get that finds an entry whose time-to-live has run out
    (its expiry is positive and before the clock's [UnixNano]) does not
    return it: it goes to the network, and on a 200 answer returns the new
    body and puts it in place of the old entry, to expire at the [UnixNano]
    of the time of insertion plus the default time-to-live. *)
Theorem Get_refetches_expired_entry
  (url : string) (st st1 : State) (item : cache.Item) (resp : Response) :
  cache.items (requestCache (self st)) !! url = Some item ->
  0 < cache.Expiration item ->
  cache.Expiration item
  < time.UnixNano (clock (world st) (ticks (world st))) ->
  CheckRefresh (with_world (tick (world st)) st) = (Ret None, st1) ->
  http_NewRequest_err "GET" url = None ->
  server (world st1) (sent (world st1))
    (resource_request "GET" url EmptyString (self st1)) = Answered resp ->
  fault (Body resp) = None ->
  StatusCode resp = 200 ->
  0 < cache.defaultExpiration (requestCache (self st1)) ->
  let st2 := snd (Get url true st) in
  fst (Get url true st) = Ret (content (Body resp), None) /\
  sent (world st2)
  = resource_request "GET" url EmptyString (self st1) :: sent (world st1) /\
  cache.items (requestCache (self st2)) !! url
  = Some {| cache.Object := content (Body resp);
            cache.Expiration :=
              time.UnixNano
                (time.Add (clock (world st1) (ticks (world st1)))
                   (cache.defaultExpiration (requestCache (self st1)))) |}.
Proof.
  intros Hitem Hexp Hold Hrefresh Hurl Hsrv Hread Hcode Hd.
  assert (Hmiss : cache_lookup (requestCache (self st)) url
                    (clock (world st) (ticks (world st))) = None).
  { unfold cache_lookup. rewrite Hitem.
    destruct (Z.ltb_spec 0 (cache.Expiration item)); [|lia].
    destruct (Z.ltb_spec (cache.Expiration item)
                (time.UnixNano (clock (world st) (ticks (world st)))));
      [reflexivity|lia]. }
  assert (Hafter : after_Get url st = with_world (tick (world st)) st).
  { unfold after_Get, Get_reads_clock. rewrite Hitem.
    destruct (Z.ltb_spec 0 (cache.Expiration item)); [reflexivity|lia]. }
  unfold Get. rewrite request_run, Hmiss, Hafter.
  rewrite (after_refresh_passed _ _ _ Hrefresh).
  rewrite (dispatch_accepted_cached _ _ _ _ Hurl Hsrv Hread Hcode Hd).
  cbv zeta. cbn [fst snd self world sent tick record requestCache
                 set_requestCache cache.items cache.with_items].
  split; [reflexivity|]. split; [reflexivity|]. apply lookup_insert_eq.
Qed.

(** X6. A get without cache neither reads nor writes the response cache:
    its result is the same whatever the cache holds, and the cache is the
    same afterwards, so the body it fetched is not served to a later cached
    get. *)
Theorem Get_uncached_never_touches_cache (url : string) :
  ignores_cache (Get url false) /\
  (forall st : State,
     requestCache (self (snd (Get url false st))) = requestCache (self st)).
Proof.
  assert (Hign : ignores_cache (Get url false))
    by apply request_uncached_ignores_cache.
  split; [exact Hign|].
  intros st. apply ignores_cache_keeps, Hign.
Qed.

(** X7. Only a body that is returned is cached: whenever a resource call
    does not return a body with a nil error (an error of any kind, or a
    panic), the response cache is exactly what it was before the call. *)
Theorem failed_request_leaves_cache
  (method url : string) (useCache : bool) (data : string) (st : State) :
  (forall body,
     fst (request method url useCache data st) <> Ret (body, None)) ->
  requestCache (self (snd (request method url useCache data st)))
  = requestCache (self st).
Proof.
  assert (Htail : forall c st0,
    requestCache (self st0) = requestCache (self st) ->
    (forall body, fst (after_refresh (dispatch method url c data) st0)
                  <> Ret (body, None)) ->
    requestCache (self (snd (after_refresh (dispatch method url c data) st0)))
    = requestCache (self st)).
  { intros c st0 Hsame. unfold after_refresh, bind.
    pose proof (CheckRefresh_keeps_cache st0) as Hkeep.
    destruct (CheckRefresh st0) as [[[e|]|msg] st1]; unfold ret;
      cbn [fst snd] in *; intros Hfail; [congruence| |congruence].
    rewrite (dispatch_failure_keeps_self _ _ _ _ _ Hfail). congruence. }
  rewrite request_run. destruct useCache.
  - destruct (cache_lookup _ _ _) as [v|].
    + intros Hfail. exfalso. apply (Hfail v). reflexivity.
    + apply Htail. now rewrite after_Get_self.
  - apply Htail. reflexivity.
Qed.

(** X8. The cache is keyed by the target alone: whatever a resource call
    for one target does, the entry of every other target is left as it
    was. *)
Theorem request_leaves_other_entries
  (method url : string) (useCache : bool) (data : string) (st : State)
  (url' : string) :
  url' <> url ->
  cache.items
    (requestCache (self (snd (request method url useCache data st)))) !! url'
  = cache.items (requestCache (self st)) !! url'.
Proof.
  intros Hne.
  assert (Htail : forall c st0,
    requestCache (self st0) = requestCache (self st) ->
    cache.items
      (requestCache
         (self (snd (after_refresh (dispatch method url c data) st0)))) !! url'
    = cache.items (requestCache (self st)) !! url').
  { intros c st0 Hsame. unfold after_refresh, bind.
    pose proof (CheckRefresh_keeps_cache st0) as Hkeep.
    destruct (CheckRefresh st0) as [[[e|]|msg] st1]; unfold ret;
      cbn [fst snd] in *; [congruence| |congruence].
    rewrite (dispatch_other_key _ _ _ _ _ _ Hne). congruence. }
  rewrite request_run. destruct useCache.
  - destruct (cache_lookup _ _ _) as [v|].
    + cbn [snd]. now rewrite after_Get_self.
    + apply Htail. now rewrite after_Get_self.
  - apply Htail. reflexivity.
Qed.

(** X9. A post does not invalidate the cache: a body that the cache would
    serve for a target before a post (to that target or any other) is still
    served by a cached get right after it, without any request. *)
Theorem cached_body_survives_Post
  (url target data : string) (st : State) (v : string) :
  let st' := snd (Post target data st) in
  cache_lookup (requestCache (self st)) url
    (clock (world st') (ticks (world st'))) = Some v ->
  Get url true st' = (Ret (v, None), after_Get url st') /\
  sent (world (snd (Get url true st'))) = sent (world st').
Proof.
  intros st' Hfound.
  assert (Hcache : requestCache (self st') = requestCache (self st)).
  { apply (ignores_cache_keeps (Post target data)).
    apply request_uncached_ignores_cache. }
  assert (Hget : Get url true st' = (Ret (v, None), after_Get url st')).
  { unfold Get. rewrite request_run, Hcache, Hfound. reflexivity. }
  split; [exact Hget|]. rewrite Hget. apply after_Get_sent.
Qed.
End CacheUse.

(** ** What the calls keep *)
Section Invariants.
Context {E : Externals}.

Lemma AuthenticateUbiTicket_keeps_frame ticket :
  keeps_frame (AuthenticateUbiTicket ticket).
Proof.
  intros st.
  destruct (http_NewRequest_err "POST" endpoint_ubiservices) as [err|] eqn:Hurl.
  - rewrite (AuthenticateUbiTicket_no_request _ _ _ Hurl). reflexivity.
  - rewrite (AuthenticateUbiTicket_run _ _ Hurl).
    apply (exchange_keeps_frame
             (fun st => ubiservices_request (self st) ticket)).
Qed.

Lemma Authenticate_keeps_frame username password :
  keeps_frame (Authenticate username password).
Proof.
  intros st.
  destruct (http_NewRequest_err "POST" endpoint_basic) as [err|] eqn:Hurl.
  - rewrite (Authenticate_no_request _ _ _ _ Hurl). reflexivity.
  - rewrite (Authenticate_run _ _ _ Hurl).
    apply (exchange_keeps_frame
             (fun st => basic_request (self st) username password)).
Qed.

(** X10. No method changes the audience of the session or the default
    time-to-live of its cache: both stay what [NewNadeoWithAudience] set,
    whatever the server answers. *)
Theorem methods_keep_audience_and_ttl
  (ticket username password email url data : string) (useCache : bool) :
  keeps_frame (AuthenticateUbiTicket ticket) /\
  keeps_frame (Authenticate username password) /\
  keeps_frame (AuthenticateUbi email password) /\
  keeps_frame refreshNow /\
  keeps_frame CheckRefresh /\
  keeps_frame (Get url useCache) /\
  keeps_frame (Post url data).
Proof.
  split; [apply AuthenticateUbiTicket_keeps_frame|].
  split; [apply Authenticate_keeps_frame|].
  split.
  { intros st. unfold AuthenticateUbi.
    destruct (Ubi_Authenticate _ _ _ _) as [[ubi err] w].
    apply (AuthenticateUbiTicket_keeps_frame _ (with_world w st)). }
  split; [apply refreshNow_keeps_frame|].
  split; [apply CheckRefresh_keeps_frame|].
  split; apply request_keeps_frame.
Qed.

Lemma exchange_times req st :
  (fst (exchange req st) = Ret None ->
   times_consistent (self (snd (exchange req st)))) /\
  (times_consistent (self st) ->
   times_consistent (self (snd (exchange req st)))).
Proof.
  unfold exchange.
  destruct (server _ _ _) as [err|resp];
    [split; [discriminate|auto]|].
  destruct (makeslice_panic (ContentLength resp)); [split; [discriminate|auto]|].
  destruct (StatusCode resp =? 200); [|split; [discriminate|auto]].
  split; intros _; split; reflexivity.
Qed.

Lemma refreshNow_times st :
  (fst (refreshNow st) = Ret None ->
   times_consistent (self (snd (refreshNow st)))) /\
  (times_consistent (self st) ->
   times_consistent (self (snd (refreshNow st)))).
Proof.
  destruct (http_NewRequest_err "POST" endpoint_refresh) as [err|] eqn:Hurl.
  - rewrite (refreshNow_no_request _ _ Hurl). split; [discriminate|auto].
  - rewrite (refreshNow_run _ Hurl). apply exchange_times.
Qed.

Lemma CheckRefresh_times_consistent st :
  times_consistent (self st) ->
  times_consistent (self (snd (CheckRefresh st))).
Proof.
  intros Hst. rewrite CheckRefresh_run. cbv zeta.
  destruct (tokenRefreshTime (self st) <? now32 (world st)); [|exact Hst].
  pose proof (proj2 (refreshNow_times (with_world (tick (world st)) st)) Hst)
    as H.
  destruct (refreshNow _) as [[[e|]|msg] st2]; exact H.
Qed.

(** [dispatch] replaces at most the cache of the session. *)
Lemma dispatch_self method url useCache data st :
  exists c : cache.Cache,
    self (snd (dispatch method url useCache data st))
    = set_requestCache c (self st).
Proof.
  assert (Hsame : self st = set_requestCache (requestCache (self st)) (self st))
    by (destruct (self st); reflexivity).
  unfold dispatch.
  destruct (http_NewRequest_err method url); [eauto|].
  destruct (server _ _ _) as [err|resp]; [eauto|].
  destruct (fault (Body resp)); [eauto|].
  destruct (StatusCode resp =? 200); [|eauto].
  destruct useCache; [|eauto].
  unfold bind, requestCache_Set, get_self, modify_self, time_Now, ret. cbn.
  destruct (0 <? cache.defaultExpiration (requestCache (self st))); cbn;
    eauto.
Qed.

Lemma request_times_consistent method url useCache data st :
  times_consistent (self st) ->
  times_consistent (self (snd (request method url useCache data st))).
Proof.
  intros Hst.
  assert (Htail : forall c st0,
    self st0 = self st ->
    times_consistent
      (self (snd (after_refresh (dispatch method url c data) st0)))).
  { intros c st0 Hsame. unfold after_refresh, bind.
    assert (H0 : times_consistent (self st0)) by now rewrite Hsame.
    pose proof (CheckRefresh_times_consistent st0 H0) as H.
    destruct (CheckRefresh st0) as [[[e|]|msg] st1]; unfold ret;
      cbn [fst snd] in *; [exact H| |exact H].
    destruct (dispatch_self method url c data st1) as [c' Hc].
    rewrite Hc. exact H. }
  rewrite request_run. destruct useCache.
  - destruct (cache_lookup _ _ _) as [v|].
    + cbn [snd]. now rewrite after_Get_self.
    + apply Htail, after_Get_self.
  - apply Htail. reflexivity.
Qed.

(** X11. After any authentication or refresh call that returned nil, the
    two times of the session are those decoded from the access token it
    holds, and [CheckRefresh], [Get] and [Post] keep it so.  In such a
    session [GetTokenInfo] reports exactly the refresh-after and expiry
    times the refresh check works with, and changes nothing. *)
Theorem session_times_follow_token
  (ticket username password method url data : string) (useCache : bool) :
  (forall st, fst (AuthenticateUbiTicket ticket st) = Ret None ->
     times_consistent (self (snd (AuthenticateUbiTicket ticket st)))) /\
  (forall st, fst (Authenticate username password st) = Ret None ->
     times_consistent (self (snd (Authenticate username password st)))) /\
  (forall st, fst (refreshNow st) = Ret None ->
     times_consistent (self (snd (refreshNow st)))) /\
  (forall st, times_consistent (self st) ->
     times_consistent (self (snd (CheckRefresh st))) /\
     times_consistent (self (snd (request method url useCache data st)))) /\
  (forall st, times_consistent (self st) ->
     GetTokenInfo st
     = (Ret {| Payload := {| Rat := tokenRefreshTime (self st);
                             Exp := tokenExpirationTime (self st) |} |},
        st)).
Proof.
  split.
  { intros st.
    destruct (http_NewRequest_err "POST" endpoint_ubiservices) as [err|] eqn:Hurl.
    - rewrite (AuthenticateUbiTicket_no_request _ _ _ Hurl). discriminate.
    - rewrite (AuthenticateUbiTicket_run _ _ Hurl). apply exchange_times. }
  split.
  { intros st.
    destruct (http_NewRequest_err "POST" endpoint_basic) as [err|] eqn:Hurl.
    - rewrite (Authenticate_no_request _ _ _ _ Hurl). discriminate.
    - rewrite (Authenticate_run _ _ _ Hurl). apply exchange_times. }
  split; [intros st; apply refreshNow_times|].
  split.
  { intros st Hst. split;
      [apply CheckRefresh_times_consistent|apply request_times_consistent];
      exact Hst. }
  intros st [Hrat Hexp]. unfold GetTokenInfo, bind, get_self, ret.
  rewrite Hrat, Hexp.
  destruct (parseTokenInfo (accessToken (self st))) as [[rat exp]].
  reflexivity.
Qed.
End Invariants.

(** ** What goes over the network *)
Section Network.
Context {E : Externals}.

Lemma CheckRefresh_sent_cases st :
  sent (world (snd (CheckRefresh st))) = sent (world st) \/
  sent (world (snd (CheckRefresh st)))
  = refresh_request (self st) :: sent (world st).
Proof.
  rewrite CheckRefresh_run. cbv zeta.
  destruct (tokenRefreshTime (self st) <? now32 (world st)); [|left; reflexivity].
  destruct (http_NewRequest_err "POST" endpoint_refresh) as [err|] eqn:Hurl.
  - rewrite (refreshNow_no_request _ _ Hurl). left. reflexivity.
  - rewrite (refreshNow_run _ Hurl). right.
    pose proof (exchange_sent (refresh_request (self st))
                  (with_world (tick (world st)) st)) as H.
    destruct (exchange _ _) as [[[e|]|msg] st2]; exact H.
Qed.

Lemma dispatch_sent_cases method url useCache data st :
  sent (world (snd (dispatch method url useCache data st))) = sent (world st) \/
  sent (world (snd (dispatch method url useCache data st)))
  = resource_request method url data (self st) :: sent (world st).
Proof.
  destruct (http_NewRequest_err method url) as [err|] eqn:Hurl.
  - left. unfold dispatch. rewrite Hurl. reflexivity.
  - right. apply dispatch_sent, Hurl.
Qed.

Lemma resource_request_token method url data n n' :
  accessToken n = accessToken n' ->
  resource_request method url data n = resource_request method url data n'.
Proof. intros H. unfold resource_request. now rewrite H. Qed.

(** X12. A resource call never retries and talks to nobody else.  The
    requests it performs are, in this order, at most one refresh request,
    built from the session the call began with, and then at most one
    request for the target, carrying the access token the session holds
    when the call ends; nothing else is added to the log, and a cache hit
    adds nothing. *)
Theorem request_sends_at_most_two
  (method url : string) (useCache : bool) (data : string) (st : State) :
  let st' := snd (request method url useCache data st) in
  exists refreshed targeted : bool,
    sent (world st')
    = ((if targeted then [resource_request method url data (self st')]
        else []) ++
       (if refreshed then [refresh_request (self st)] else []) ++
       sent (world st))%list /\
    (useCache = true ->
     forall v, cache_lookup (requestCache (self st)) url
                 (clock (world st) (ticks (world st))) = Some v ->
               refreshed = false /\ targeted = false).
Proof.
  assert (Htail : forall c st0,
    self st0 = self st -> sent (world st0) = sent (world st) ->
    let st' := snd (after_refresh (dispatch method url c data) st0) in
    exists refreshed targeted : bool,
      sent (world st')
      = ((if targeted then [resource_request method url data (self st')]
          else []) ++
         (if refreshed then [refresh_request (self st)] else []) ++
         sent (world st))%list).
  { intros c st0 Hself Hsent. unfold after_refresh, bind.
    pose proof (CheckRefresh_sent_cases st0) as Hcheck.
    rewrite Hself, Hsent in Hcheck.
    destruct (CheckRefresh st0) as [[[e|]|msg] st1]; unfold ret;
      cbn [fst snd] in *.
    1,3: destruct Hcheck as [H|H]; rewrite H;
         [exists false, false|exists true, false]; reflexivity.
    pose proof (dispatch_sent_cases method url c data st1) as Hdisp.
    pose proof (resource_request_token method url data _ _
                  (dispatch_keeps_tokens method url c data st1)) as Htok.
    destruct Hdisp as [Hd|Hd]; destruct Hcheck as [Hc|Hc]; rewrite Hd, Hc.
    - exists false, false. reflexivity.
    - exists true, false. reflexivity.
    - exists false, true. now rewrite Htok.
    - exists true, true. now rewrite Htok. }
  cbv zeta. rewrite request_run. destruct useCache.
  - destruct (cache_lookup _ _ _) as [v|] eqn:Hlook.
    + exists false, false. cbn [fst snd]. rewrite after_Get_sent.
      split; [reflexivity|]. intros _ v' _. split; reflexivity.
    + destruct (Htail true (after_Get url st) (after_Get_self _ _)
                  (after_Get_sent _ _)) as [refreshed [targeted Hlog]].
      exists refreshed, targeted. split; [exact Hlog|].
      intros _ v Hv. discriminate Hv.
  - destruct (Htail false st eq_refl eq_refl) as [refreshed [targeted Hlog]].
    exists refreshed, targeted. split; [exact Hlog|].
    intros Hc. discriminate Hc.
Qed.

(** X13. A successful call overwrites, it does not merge: after a login
    that succeeded and a refresh that succeeded, the session is what the
    refresh answer alone makes of the session before the login; nothing of
    the login's tokens or times is left. *)
Theorem refresh_overwrites_login
  (username password : string) (st st1 st2 : State) :
  http_NewRequest_err "POST" endpoint_basic = None ->
  http_NewRequest_err "POST" endpoint_refresh = None ->
  Authenticate username password st = (Ret None, st1) ->
  refreshNow st1 = (Ret None, st2) ->
  exists resp : Response,
    server (world st1) (sent (world st1)) (refresh_request (self st1))
    = Answered resp /\
    self st2 = store_tokens (decode_tokens resp) (self st).
Proof.
  intros Hbasic Hrefresh Hlogin Hnow.
  rewrite (Authenticate_run _ _ _ Hbasic) in Hlogin.
  rewrite (refreshNow_run _ Hrefresh) in Hnow.
  pose proof (exchange_all_or_nothing
                (fun st => basic_request (self st) username password) st)
    as H1. cbv beta in H1. rewrite Hlogin in H1.
  destruct H1 as (req1 & resp1 & _ & _ & Hself1).
  pose proof (exchange_all_or_nothing
                (fun st => refresh_request (self st)) st1) as H2.
  cbv beta in H2. rewrite Hnow in H2.
  destruct H2 as (req2 & resp2 & Hsent2 & Hsrv2 & Hself2).
  pose proof (exchange_sent (refresh_request (self st1)) st1) as Hlog.
  rewrite Hnow in Hlog. cbn [snd] in Hlog. rewrite Hsent2 in Hlog.
  injection Hlog as Hreq. subst req2.
  exists resp2. split; [exact Hsrv2|].
  rewrite Hself2, Hself1. reflexivity.
Qed.

(** X16. [Authenticate] posts to the token/basic endpoint the JSON text
    naming the audience, with Content-Type: application/json and the
    Authorization value of [SetBasicAuth]; [refreshNow] posts to the
    token/refresh endpoint without a body and with one header,
    Authorization: nadeo_v1 t= followed by the refresh token (not the access
    token). *)
Theorem basic_and_refresh_requests_sent
  (username password : string) (st : State) :
  (http_NewRequest_err "POST" endpoint_basic = None ->
   sent (world (snd (Authenticate username password st)))
   = {| Method := "POST";
        URL := "https://prod.trackmania.core.nadeo.online/v2/authentication/token/basic";
        Header := [("Content-Type", "application/json");
                   ("Authorization", basicAuth username password)];
        ReqBody := Some ("{" +:+ dquote +:+ "audience" +:+ dquote +:+ ":" +:+
                         dquote +:+ audience (self st) +:+ dquote +:+ "}") |}
     :: sent (world st)) /\
  (http_NewRequest_err "POST" endpoint_refresh = None ->
   sent (world (snd (refreshNow st)))
   = {| Method := "POST";
        URL := "https://prod.trackmania.core.nadeo.online/v2/authentication/token/refresh";
        Header := [("Authorization", "nadeo_v1 t=" +:+ refreshToken (self st))];
        ReqBody := None |}
     :: sent (world st)).
Proof.
  split; intros Hurl.
  - rewrite (Authenticate_run _ _ _ Hurl). apply exchange_sent.
  - rewrite (refreshNow_run _ Hurl). apply exchange_sent.
Qed.
End Network.

(** ** Sessions over time *)
Section Sessions.
Context {E : Externals}.

Lemma exchange_keeps_cache_and_clock req st :
  requestCache (self (snd (exchange req st))) = requestCache (self st) /\
  ticks (world (snd (exchange req st))) = ticks (world st) /\
  clock (world (snd (exchange req st))) = clock (world st).
Proof.
  unfold exchange.
  destruct (server _ _ _) as [err|resp]; [auto|].
  destruct (makeslice_panic (ContentLength resp)); [auto|].
  destruct (StatusCode resp =? 200); auto.
Qed.

Lemma Get_hit_after (url : string) (st st' : State) (v : string) :
  requestCache (self st') = requestCache (self st) ->
  ticks (world st') = ticks (world st) ->
  clock (world st') = clock (world st) ->
  cache_lookup (requestCache (self st)) url
    (clock (world st) (ticks (world st))) = Some v ->
  fst (Get url true st') = Ret (v, None) /\
  sent (world (snd (Get url true st'))) = sent (world st').
Proof.
  intros Hcache Hticks Hclock Hfound.
  unfold Get. rewrite request_run, Hcache, Hticks, Hclock, Hfound.
  split; [reflexivity|apply after_Get_sent].
Qed.

(** X14. The authentication and refresh calls neither touch the response
    cache nor read the clock, whatever their outcome.  So logging in again,
    even as somebody else, does not drop what was cached: a body the cache
    would serve before the call is served by a cached get right after it,
    without any request. *)
Theorem authentication_leaves_cache
  (ticket username password url : string) (st : State) (v : string) :
  cache_lookup (requestCache (self st)) url
    (clock (world st) (ticks (world st))) = Some v ->
  (let st' := snd (AuthenticateUbiTicket ticket st) in
   requestCache (self st') = requestCache (self st) /\
   fst (Get url true st') = Ret (v, None) /\
   sent (world (snd (Get url true st'))) = sent (world st')) /\
  (let st' := snd (Authenticate username password st) in
   requestCache (self st') = requestCache (self st) /\
   fst (Get url true st') = Ret (v, None) /\
   sent (world (snd (Get url true st'))) = sent (world st')) /\
  (let st' := snd (refreshNow st) in
   requestCache (self st') = requestCache (self st) /\
   fst (Get url true st') = Ret (v, None) /\
   sent (world (snd (Get url true st'))) = sent (world st')).
Proof.
  intros Hfound.
  assert (Hany : forall op : M error,
    (exists req, op st = exchange req st) \/ snd (op st) = st ->
    let st' := snd (op st) in
    requestCache (self st') = requestCache (self st) /\
    fst (Get url true st') = Ret (v, None) /\
    sent (world (snd (Get url true st'))) = sent (world st')).
  { intros op [[req Hop]|Hop]; cbv zeta.
    - rewrite Hop.
      destruct (exchange_keeps_cache_and_clock req st) as [Hc [Ht Hk]].
      split; [exact Hc|]. apply (Get_hit_after url st _ v Hc Ht Hk Hfound).
    - rewrite Hop. split; [reflexivity|].
      apply (Get_hit_after url st st v eq_refl eq_refl eq_refl Hfound). }
  split; [|split]; apply Hany.
  - destruct (http_NewRequest_err "POST" endpoint_ubiservices) as [err|] eqn:Hurl.
    + right. now rewrite (AuthenticateUbiTicket_no_request _ _ _ Hurl).
    + left. eexists. apply (AuthenticateUbiTicket_run _ _ Hurl).
  - destruct (http_NewRequest_err "POST" endpoint_basic) as [err|] eqn:Hurl.
    + right. now rewrite (Authenticate_no_request _ _ _ _ Hurl).
    + left. eexists. apply (Authenticate_run _ _ _ Hurl).
  - destruct (http_NewRequest_err "POST" endpoint_refresh) as [err|] eqn:Hurl.
    + right. now rewrite (refreshNow_no_request _ _ Hurl).
    + left. eexists. apply (refreshNow_run _ Hurl).
Qed.

Lemma ticked_zero st : ticked 0 st = st.
Proof.
  destruct st as [n [c t srv s]]. unfold ticked, with_world. cbn.
  now rewrite Nat.add_0_r.
Qed.

Lemma ticked_succ k st :
  ticked k (with_world (tick (world st)) st) = ticked (S k) st.
Proof.
  unfold ticked, with_world, tick. cbn. now rewrite Nat.add_succ_r.
Qed.

(** X15. [CheckRefresh] is idle before the deadline however often it is
    called: when none of the next [k] readings of the clock is past
    refreshAfter, [k] calls in a row leave the session and the log of
    requests as they were; all they do is read the clock [k] times. *)
Theorem CheckRefresh_idle_before_deadline (k : nat) (st : State) :
  (forall i : nat, (i < k)%nat ->
     uint32 (time.Unix (clock (world st) (ticks (world st) + i)))
     <= tokenRefreshTime (self st)) ->
  CheckRefresh_times k st = ticked k st.
Proof.
  revert st. induction k as [|k IH]; intros st Hidle.
  - cbn. symmetry. apply ticked_zero.
  - cbn [CheckRefresh_times].
    rewrite CheckRefresh_not_due.
    + cbn [snd]. rewrite IH; [apply ticked_succ|].
      intros i Hi. cbn. rewrite <- Nat.add_succ_r. apply Hidle. lia.
    + unfold now32. specialize (Hidle 0%nat ltac:(lia)).
      now rewrite Nat.add_0_r in Hidle.
Qed.

(** X17. The refresh check sees the clock through 32 bits only.  A session
    whose refreshAfter is 2^32 - 1 or more is never refreshed; and when the
    clock's seconds are 2^32 * q + r with r below 2^32 and not past
    refreshAfter, no refresh happens however large q is. *)
Theorem CheckRefresh_compares_low_32_bits (st : State) :
  (2 ^ 32 - 1 <= tokenRefreshTime (self st) ->
   CheckRefresh st = (Ret None, with_world (tick (world st)) st)) /\
  (forall q r : Z,
     time.Unix (clock (world st) (ticks (world st))) = 2 ^ 32 * q + r ->
     0 <= r < 2 ^ 32 ->
     r <= tokenRefreshTime (self st) ->
     CheckRefresh st = (Ret None, with_world (tick (world st)) st)).
Proof.
  split.
  - intros Hmax. apply CheckRefresh_not_due. unfold now32, uint32.
    pose proof (Z.mod_pos_bound
                  (time.Unix (clock (world st) (ticks (world st)))) (2 ^ 32)
                  ltac:(lia)). lia.
  - intros q r Hclock Hr Hle. apply CheckRefresh_not_due.
    unfold now32, uint32. rewrite Hclock.
    rewrite Z.add_comm, Z.mul_comm, Z_mod_plus_full.
    rewrite Z.mod_small by exact Hr. exact Hle.
Qed.

(** X18. Using a session that never authenticated: at any time after
    second 0, a get or post on a session fresh from [NewNadeoWithAudience]
    first tries a refresh with the empty refresh token; when the server
    rejects that with a status other than 200, the read buffer allocated,
    the call returns the rejection behind the refresh prefix, and the target
    is never contacted. *)
Theorem request_on_fresh_session
  (audience method url data : string) (useCache : bool) (w : World)
  (resp : Response) :
  0 < now32 w ->
  http_NewRequest_err "POST" endpoint_refresh = None ->
  let req := {| Method := "POST"; URL := endpoint_refresh;
                Header := [("Authorization", "nadeo_v1 t=")];
                ReqBody := None |} in
  server w (sent w) req = Answered resp ->
  StatusCode resp <> 200 ->
  makeslice_panic (ContentLength resp) = None ->
  request method url useCache data
    {| self := NewNadeoWithAudience audience; world := w |}
  = (Ret (EmptyString,
          Some ("unable to refresh token: " +:+
                server_error_text (decode_error resp))),
     {| self := NewNadeoWithAudience audience;
        world := record req (tick w) |}).
Proof.
  intros Hnow Hurl req Hsrv Hcode Hlen.
  set (st := {| self := NewNadeoWithAudience audience; world := w |}).
  assert (Hcheck : CheckRefresh st
    = (Ret (Some ("unable to refresh token: " +:+
                  server_error_text (decode_error resp))),
       {| self := NewNadeoWithAudience audience;
          world := record req (tick w) |})).
  { rewrite (CheckRefresh_due st Hnow Hurl).
    rewrite (exchange_rejected (refresh_request (self st))
               (with_world (tick (world st)) st) resp Hsrv Hlen Hcode).
    reflexivity. }
  rewrite request_run. unfold after_refresh, bind. destruct useCache.
  - assert (Hmiss : cache_lookup (requestCache (self st)) url
                      (clock (world st) (ticks (world st))) = None).
    { unfold cache_lookup. cbn. now rewrite lookup_empty. }
    assert (Hafter : after_Get url st = st).
    { unfold after_Get, Get_reads_clock. cbn. now rewrite lookup_empty. }
    rewrite Hmiss, Hafter, Hcheck. reflexivity.
  - rewrite Hcheck. reflexivity.
Qed.
End Sessions.

(** ** The ticket flow end to end *)
Section TicketFlow.
Context {E : Externals}.

(** X19. [AuthenticateUbi] logs in to the ticket service under the fixed
    application id and then sends exactly one request of its own, after
    whatever the ticket service did: the ticket request whose Authorization
    header is ubi_v1 t= followed by the ticket the service holds, even when
    the service reported an error. *)
Theorem AuthenticateUbi_sends_the_ticket
  (email password : string) (st : State) (ubi : Ubi) (err : error)
  (w : World) :
  Ubi_Authenticate (NewUbi "86263886-327a-4328-ac69-527f0d20a237")
    email password (world st) = ((ubi, err), w) ->
  http_NewRequest_err "POST" endpoint_ubiservices = None ->
  sent (world (snd (AuthenticateUbi email password st)))
  = {| Method := "POST"; URL := endpoint_ubiservices;
       Header := [("Content-Type", "application/json");
                  ("Authorization", "ubi_v1 t=" +:+ Ubi_GetTicket ubi)];
       ReqBody := Some (audience_body (self st)) |}
    :: sent w.
Proof.
  intros Hubi Hurl. unfold AuthenticateUbi. rewrite Hubi.
  rewrite (AuthenticateUbiTicket_run _ _ Hurl).
  apply (exchange_sent _ (with_world w st)).
Qed.
End TicketFlow.

(** ** The further properties on the concrete environment *)

Lemma exchange_transport_failure_witness :
  let st := {| self := Demo.session 500;
               world := Demo.world_with Demo.serve_down |} in
  fst (refreshNow (E := Demo.externals) st)
  = Ret (Some "unable to perform request: connection refused") /\
  self (snd (refreshNow (E := Demo.externals) st)) = Demo.session 500 /\
  fst (Authenticate (E := Demo.externals) "ann" "hunter2" st)
  = Ret (Some "unable to perform request: connection refused") /\
  fst (AuthenticateUbiTicket (E := Demo.externals) "ticket" st)
  = Ret (Some "unable to perform request: connection refused").
Proof.
  cbv zeta.
  destruct (exchange_transport_failure (E := Demo.externals)
              "ticket" "ann" "hunter2"
              {| self := Demo.session 500;
                 world := Demo.world_with Demo.serve_down |}
              "connection refused") as [Hticket [Hbasic Hrefresh]].
  rewrite (Hrefresh eq_refl eq_refl), (Hbasic eq_refl eq_refl),
    (Hticket eq_refl eq_refl).
  repeat split.
Defined.

Lemma request_failures_witness :
  fst (Get (E := Demo.externals_strict) ":maps" false (Demo.state 5000))
  = Ret (EmptyString, Some "unable to make request: missing protocol scheme") /\
  fst (Post (E := Demo.externals) "https://live/maps" "{}"
         {| self := Demo.session 5000;
            world := Demo.world_with Demo.serve_down |})
  = Ret (EmptyString, Some "unable to perform request: connection refused") /\
  fst (Get (E := Demo.externals) "https://live/maps" true
         {| self := Demo.session 5000;
            world := Demo.world_with Demo.serve_broken |})
  = Ret (EmptyString, Some "unable to read from stream: unexpected EOF").
Proof.
  split; [|split].
  - destruct (request_failures (E := Demo.externals_strict)
                "GET" ":maps" false EmptyString (Demo.state 5000)
                (with_world (tick (world (Demo.state 5000))) (Demo.state 5000))
                ltac:(discriminate) eq_refl) as [Hbuild _].
    unfold Get. rewrite (Hbuild "missing protocol scheme" eq_refl).
    reflexivity.
  - set (st := {| self := Demo.session 5000;
                  world := Demo.world_with Demo.serve_down |}).
    destruct (request_failures (E := Demo.externals)
                "POST" "https://live/maps" false "{}" st
                (with_world (tick (world st)) st)
                ltac:(discriminate) eq_refl) as [_ [Hdo _]].
    unfold Post. rewrite (Hdo "connection refused" eq_refl eq_refl).
    reflexivity.
  - set (st := {| self := Demo.session 5000;
                  world := Demo.world_with Demo.serve_broken |}).
    destruct (request_failures (E := Demo.externals)
                "GET" "https://live/maps" true EmptyString st
                (with_world (tick (world st)) st)
                (fun _ => eq_refl) eq_refl) as [_ [_ Hread]].
    unfold Get.
    rewrite (Hread {| StatusCode := 200; ContentLength := 7;
                      Body := {| content := "[1,2";
                                 fault := Some "unexpected EOF" |} |}
               "unexpected EOF" eq_refl eq_refl eq_refl).
    reflexivity.
Defined.

Lemma request_stops_on_refresh_failure_witness :
  fst (Get (E := Demo.externals) "https://live/maps" true Demo.fresh_state)
  = Ret (EmptyString,
         Some "unable to refresh token: error 401 from server: Invalid credentials.") /\
  sent (world (snd (Get (E := Demo.externals) "https://live/maps" true
                      Demo.fresh_state)))
  = [refresh_request NewNadeo].
Proof.
  destruct (request_stops_on_refresh_failure (E := Demo.externals)
              "GET" "https://live/maps" true EmptyString Demo.fresh_state
              (snd (CheckRefresh (E := Demo.externals) Demo.fresh_state))
              "unable to refresh token: error 401 from server: Invalid credentials."
              (fun _ => eq_refl) eq_refl) as [Hrun _].
  unfold Get. rewrite Hrun. split; reflexivity.
Defined.

Lemma request_uses_refreshed_token_witness :
  sent (world (snd (Get (E := Demo.externals) "https://live/maps" true
                      (Demo.state 500))))
  = [ {| Method := "GET"; URL := "https://live/maps";
         Header := [("Authorization", "nadeo_v1 t=access-2");
                    ("Accept", "application/json");
                    ("Content-Type", "application/json")];
         ReqBody := None |};
      refresh_request (Demo.session 500) ] /\
  sent (world (snd (Post (E := Demo.externals) "https://live/maps" "{}"
                      (Demo.state 500))))
  = [ {| Method := "POST"; URL := "https://live/maps";
         Header := [("Authorization", "nadeo_v1 t=access-2");
                    ("Accept", "application/json");
                    ("Content-Type", "application/json")];
         ReqBody := Some "{}" |};
      refresh_request (Demo.session 500) ].
Proof.
  split.
  - exact (request_uses_refreshed_token (E := Demo.externals)
             "GET" "https://live/maps" EmptyString true (Demo.state 500)
             {| StatusCode := 200; ContentLength := 8;
                Body := {| content := "TOKENS-2"; fault := None |} |}
             (fun _ => eq_refl) eq_refl eq_refl eq_refl eq_refl eq_refl
             eq_refl).
  - exact (request_uses_refreshed_token (E := Demo.externals)
             "POST" "https://live/maps" "{}" false (Demo.state 500)
             {| StatusCode := 200; ContentLength := 8;
                Body := {| content := "TOKENS-2"; fault := None |} |}
             ltac:(discriminate) eq_refl eq_refl eq_refl eq_refl eq_refl
             eq_refl).
Defined.

Lemma Get_refetches_expired_entry_witness :
  let st := Demo.state_with_entry 5 Demo.serve in
  fst (Get (E := Demo.externals) "https://live/maps" true st)
  = Ret ("[1,2,3]", None) /\
  cache.Object
    <$> cache.items
          (requestCache
             (self (snd (Get (E := Demo.externals) "https://live/maps" true
                           st)))) !! "https://live/maps"
  = Some "[1,2,3]".
Proof.
  cbv zeta.
  destruct (Get_refetches_expired_entry (E := Demo.externals)
              "https://live/maps" (Demo.state_with_entry 5 Demo.serve)
              (ticked 2 (Demo.state_with_entry 5 Demo.serve))
              {| cache.Object := "[0]"; cache.Expiration := 5 |}
              {| StatusCode := 200; ContentLength := 7;
                 Body := {| content := "[1,2,3]"; fault := None |} |}
              eq_refl eq_refl eq_refl eq_refl eq_refl eq_refl eq_refl eq_refl
              eq_refl) as [Hbody [_ Hitem]].
  split; [exact Hbody|]. rewrite Hitem. reflexivity.
Defined.

Lemma failed_request_leaves_cache_witness :
  requestCache
    (self (snd (Get (E := Demo.externals) "https://live/none" true
                  (Demo.state_with_entry 0 Demo.serve))))
  = requestCache (Demo.session_with_entry 0).
Proof.
  apply (failed_request_leaves_cache (E := Demo.externals)
           "GET" "https://live/none" true EmptyString
           (Demo.state_with_entry 0 Demo.serve)).
  intros body. discriminate.
Defined.

Lemma request_leaves_other_entries_witness :
  let st' := snd (Get (E := Demo.externals) "https://live/other" true
                    (Demo.state_with_entry 0 Demo.serve_counting)) in
  cache.items (requestCache (self st')) !! "https://live/maps"
  = Some {| cache.Object := "[0]"; cache.Expiration := 0 |} /\
  cache.Object <$> cache.items (requestCache (self st')) !! "https://live/other"
  = Some "seen 0".
Proof.
  cbv zeta. split; [|reflexivity]. unfold Get.
  rewrite (request_leaves_other_entries (E := Demo.externals)
             "GET" "https://live/other" true EmptyString
             (Demo.state_with_entry 0 Demo.serve_counting)
             "https://live/maps" ltac:(discriminate)).
  reflexivity.
Defined.

Lemma cached_body_survives_Post_witness :
  let st := Demo.state_with_entry 2000000000000 Demo.serve in
  fst (Post (E := Demo.externals) "https://live/maps" "{}" st)
  = Ret ("[1,2,3]", None) /\
  fst (Get (E := Demo.externals) "https://live/maps" true
         (snd (Post (E := Demo.externals) "https://live/maps" "{}" st)))
  = Ret ("[0]", None).
Proof.
  cbv zeta. split; [reflexivity|].
  destruct (cached_body_survives_Post (E := Demo.externals)
              "https://live/maps" "https://live/maps" "{}"
              (Demo.state_with_entry 2000000000000 Demo.serve) "[0]" eq_refl)
    as [Hget _].
  rewrite Hget. reflexivity.
Defined.

Lemma session_times_follow_token_witness :
  let st' := snd (refreshNow (E := Demo.externals) (Demo.state 500)) in
  tokenRefreshTime (self st') = 2000 /\
  GetTokenInfo (E := Demo.externals) st'
  = (Ret {| Payload := {| Rat := 2000; Exp := 3000 |} |}, st').
Proof.
  cbv zeta.
  destruct (session_times_follow_token (E := Demo.externals)
              "ticket" "ann" "hunter2" "GET" "https://live/maps" EmptyString
              true) as [_ [_ [Hrefresh [_ Hinfo]]]].
  split; [reflexivity|].
  exact (Hinfo _ (Hrefresh (Demo.state 500) eq_refl)).
Defined.

Lemma request_sends_at_most_two_witness :
  exists refreshed targeted : bool,
    sent (world (snd (Get (E := Demo.externals) "https://live/maps" false
                        (Demo.state 500))))
    = ((if targeted
        then [resource_request "GET" "https://live/maps" EmptyString
                (store_tokens (E := Demo.externals)
                   {| AccessToken := "access-2";
                      RefreshToken := "refresh-2" |} (Demo.session 500))]
        else []) ++
       (if refreshed then [refresh_request (Demo.session 500)] else []))%list.
Proof.
  destruct (request_sends_at_most_two (E := Demo.externals)
              "GET" "https://live/maps" false EmptyString (Demo.state 500))
    as [refreshed [targeted [Hlog _]]].
  exists refreshed, targeted. unfold Get. rewrite Hlog.
  rewrite app_nil_r. reflexivity.
Defined.

Lemma refresh_overwrites_login_witness :
  let st := {| self := Demo.session 500;
               world := Demo.world_with Demo.serve_stale |} in
  let st1 := snd (Authenticate (E := Demo.externals) "ann" "hunter2" st) in
  let st2 := snd (refreshNow (E := Demo.externals) st1) in
  exists resp : Response,
    Demo.serve_stale (sent (world st1)) (refresh_request (self st1))
    = Answered resp /\
    self st2
    = store_tokens (E := Demo.externals)
        (decode_tokens (E := Demo.externals) resp) (Demo.session 500).
Proof.
  cbv zeta.
  exact (refresh_overwrites_login (E := Demo.externals) "ann" "hunter2"
           {| self := Demo.session 500;
              world := Demo.world_with Demo.serve_stale |}
           _ _ eq_refl eq_refl eq_refl eq_refl).
Defined.

Lemma authentication_leaves_cache_witness :
  let st := Demo.state_with_entry 2000000000000 Demo.serve_stale in
  let st' := snd (Authenticate (E := Demo.externals) "bob" "secret" st) in
  accessToken (self st') = "access-stale" /\
  fst (Get (E := Demo.externals) "https://live/maps" true st')
  = Ret ("[0]", None).
Proof.
  cbv zeta. split; [reflexivity|].
  destruct (authentication_leaves_cache (E := Demo.externals)
              "ticket" "bob" "secret" "https://live/maps"
              (Demo.state_with_entry 2000000000000 Demo.serve_stale) "[0]"
              eq_refl) as [_ [Hbasic _]].
  exact (proj1 (proj2 Hbasic)).
Defined.

Lemma CheckRefresh_idle_before_deadline_witness :
  CheckRefresh_times (E := Demo.externals) 3 (Demo.state 5000)
  = ticked 3 (Demo.state 5000).
Proof.
  apply (CheckRefresh_idle_before_deadline (E := Demo.externals) 3
           (Demo.state 5000)).
  intros i Hi.
  destruct i as [|[|[|i]]]; [discriminate ..|].
  exfalso. do 3 apply Nat.succ_lt_mono in Hi. inversion Hi.
Defined.

Lemma basic_and_refresh_requests_sent_witness :
  sent (world (snd (Authenticate (E := Demo.externals) "ann" "hunter2"
                      Demo.fresh_state)))
  = [basic_request (E := Demo.externals) NewNadeo "ann" "hunter2"] /\
  sent (world (snd (refreshNow (E := Demo.externals) (Demo.state 500))))
  = [refresh_request (Demo.session 500)].
Proof.
  split.
  - exact (proj1 (basic_and_refresh_requests_sent (E := Demo.externals)
                    "ann" "hunter2" Demo.fresh_state) eq_refl).
  - exact (proj2 (basic_and_refresh_requests_sent (E := Demo.externals)
                    "ann" "hunter2" (Demo.state 500)) eq_refl).
Defined.

Lemma CheckRefresh_compares_low_32_bits_witness :
  sent (world (snd (CheckRefresh (E := Demo.externals)
                      (Demo.state (2 ^ 32 - 1))))) = [] /\
  tokenRefreshTime (self Demo.state_after_wrap)
  < time.Unix (clock (world Demo.state_after_wrap) 0) /\
  sent (world (snd (CheckRefresh (E := Demo.externals)
                      Demo.state_after_wrap))) = [].
Proof.
  split; [|split; [reflexivity|]].
  - rewrite (proj1 (CheckRefresh_compares_low_32_bits (E := Demo.externals)
                      (Demo.state (2 ^ 32 - 1)))
               ltac:(discriminate)).
    reflexivity.
  - rewrite (proj2 (CheckRefresh_compares_low_32_bits (E := Demo.externals)
                      Demo.state_after_wrap)
               1 5 eq_refl ltac:(split; [discriminate|reflexivity])
               ltac:(discriminate)).
    reflexivity.
Defined.

Lemma request_on_fresh_session_witness :
  Post (E := Demo.externals) "https://live/maps" "{}" Demo.fresh_state
  = (Ret (EmptyString,
          Some "unable to refresh token: error 401 from server: Invalid credentials."),
     {| self := NewNadeo;
        world := record (refresh_request NewNadeo)
                   (tick (Demo.world_with Demo.serve)) |}).
Proof.
  exact (request_on_fresh_session (E := Demo.externals)
           "NadeoLiveServices" "POST" "https://live/maps" "{}" false
           (Demo.world_with Demo.serve)
           {| StatusCode := 401; ContentLength := 15;
              Body := {| content := "BAD-CREDENTIALS"; fault := None |} |}
           eq_refl eq_refl eq_refl ltac:(discriminate) eq_refl).
Defined.

Lemma Get_uncached_never_touches_cache_witness :
  let st := Demo.state_with_entry 2000000000000 Demo.serve in
  fst (Get (E := Demo.externals) "https://live/maps" false st)
  = Ret ("[1,2,3]", None) /\
  requestCache
    (self (snd (Get (E := Demo.externals) "https://live/maps" false st)))
  = requestCache (Demo.session_with_entry 2000000000000).
Proof.
  cbv zeta. split; [reflexivity|].
  exact (proj2 (Get_uncached_never_touches_cache (E := Demo.externals)
                  "https://live/maps")
           (Demo.state_with_entry 2000000000000 Demo.serve)).
Defined.

Lemma methods_keep_audience_and_ttl_witness :
  session_frame
    (self (snd (Get (E := Demo.externals) "https://live/maps" true
                  (snd (refreshNow (E := Demo.externals) (Demo.state 500))))))
  = ("NadeoLiveServices", 60000000000).
Proof.
  destruct (methods_keep_audience_and_ttl (E := Demo.externals)
              "ticket" "ann" "hunter2" "ann" "https://live/maps" "{}" true)
    as [_ [_ [_ [Hrefresh [_ [Hget _]]]]]].
  rewrite Hget, Hrefresh. reflexivity.
Defined.

Lemma AuthenticateUbi_sends_the_ticket_witness :
  sent (world (snd (AuthenticateUbi (E := Demo.externals) "ann" "hunter2"
                      Demo.fresh_state)))
  = [ubiservices_request NewNadeo "ticket-of-ann"] /\
  fst (AuthenticateUbi (E := Demo.externals) "ann" "hunter2" Demo.fresh_state)
  = Ret None.
Proof.
  split; [|reflexivity].
  exact (AuthenticateUbi_sends_the_ticket (E := Demo.externals)
           "ann" "hunter2" Demo.fresh_state "ticket-of-ann" None
           (world Demo.fresh_state) eq_refl eq_refl).
Defined.
